(** * Scoring pipeline of the hedge-fund agents

    A shallow embedding of the decision logic of
    [src/agents/fundamentals.py], [src/agents/sentiment.py],
    [src/agents/risk_manager.py] and [src/agents/portfolio_manager.py].

    Numbers.  The agents are embedded twice.  In the first embedding
    a Python [float] is an exact rational [Q]: sums, products, quotients
    and comparisons are those of the field of rationals, without
    rounding, infinities or NaN, and equalities between computed
    rationals are stated with [==] ([Qeq]).  It carries the properties
    of order and of structure: caps, ranges, signs, frames, error cases.
    In the second embedding, the module [F64], a Python [float] is a
    binary64 number with the rounded operations of IEEE 754.  It
    carries the statements of what is computed and published, where a
    rounded sum, product or quotient decides a branch or is truncated.
    Python [int]s are [Z] in both.

    State.  Every agent reads [state["data"]], a Python [dict], and
    returns a new dict [{**data, k1: v1, ...}].  The dict is a
    [gmap string value]; a failing subscript or an operation on a value
    of the wrong dynamic type is an [error]. *)

From Stdlib Require Import Floats.
From Stdlib Require Import QArith Qround Lqa Lia ZArith.
From stdpp Require Import gmap strings list fin_maps.

Open Scope string_scope.

(** Decimal literals denote the nearest binary64 number, as in Python. *)
Set Warnings "-inexact-float".

(** ** Python built-ins on numbers *)

Module Py.

(** [min(a, b)]: the first argument is kept unless the second is
    strictly smaller. *)
Definition min (a b : Q) : Q := if Qlt_le_dec b a then b else a.

(** [max(a, b)]: the first argument is kept unless the second is
    strictly larger. *)
Definition max (a b : Q) : Q := if Qlt_le_dec a b then b else a.

(** [int(x)] on a float: truncation toward zero. *)
Definition int (x : Q) : Z := Z.quot (Qnum x) (Zpos (Qden x)).

(** [a > b] and [a < b] as booleans. *)
Definition gt (a b : Q) : bool := if Qlt_le_dec b a then true else false.
Definition lt (a b : Q) : bool := if Qlt_le_dec a b then true else false.

(** [sum(l)] of a list of floats. *)
Definition sum (l : list Q) : Q := foldl Qplus 0%Q l.

End Py.

(** ** Errors *)

Inductive error : Type :=
| KeyError (k : string)
| IndexError
| TypeError
| ValueError
| OverflowError.

Inductive result (A : Type) : Type :=
| Ok (a : A)
| Raise (e : error).
Arguments Ok {A} a.
Arguments Raise {A} e.

Definition bind {A B} (r : result A) (f : A -> result B) : result B :=
  match r with
  | Ok a => f a
  | Raise e => Raise e
  end.

Notation "'let*' x ':=' r 'in' k" := (bind r (fun x => k))
  (at level 10, x name, r at level 100, k at level 200).

(** ** Values held by the decision context *)

(** The record read from [data["financial_metrics"][0]]: the fields the
    agents subscript. *)
Record metrics : Type := {
  return_on_equity : Q;
  net_margin : Q;
  operating_margin : Q;
  revenue_growth : Q;
  earnings_growth : Q;
  book_value_growth : Q;
  debt_to_equity : Q;
  current_ratio : Q;
  quick_ratio : Q;
  free_cash_flow_per_share : Q;
  earnings_per_share : Q;
  price_to_earnings : Q;
  price_to_book : Q;
  price_to_sales : Q;
  beta : Q;
  market_cap : Q
}.

(** An insider trade.  [shares] and [value] may be missing ([None]):
    these are the entries [dropna()] removes. *)
Record insider_trade : Type := {
  shares : option Q;
  value_ : option Q;
  transaction_type : string
}.

Record portfolio : Type := {
  cash : Q;
  stock : Z
}.

(** A price bar; the Portfolio Manager reads [close] of the last one. *)
Record price_bar : Type := { close : Q }.

(** The dynamically typed values of the dict.  [decision] is the dict
    built by the Portfolio Manager: the order, and under ["reasoning"]
    the upstream signals as they were read, the numbers that are
    formatted next to them (before formatting) and the portfolio
    figures. *)
Inductive value : Type :=
| VStr (s : string)
| VNum (q : Q)
| VMetrics (ms : list metrics)
| VTrades (ts : list insider_trade)
| VPortfolio (p : portfolio)
| VPrices (ps : list price_bar)
| VDecision (d : decision)
with decision : Type :=
| Decision (action : string) (quantity : Z)
    (fundamentals_signal : value) (fundamentals_confidence : Q)
    (technical_signal : value) (technical_confidence : Q)
    (sentiment_signal : value) (sentiment_confidence : Q)
    (valuation_signal : value) (valuation_confidence : Q)
    (risk_signal : value) (position_size : Q)
    (current_shares target_shares : Z) (current_price total_value : Q).

Definition action (d : decision) : string :=
  match d with Decision a _ _ _ _ _ _ _ _ _ _ _ _ _ _ _ => a end.
Definition quantity (d : decision) : Z :=
  match d with Decision _ q _ _ _ _ _ _ _ _ _ _ _ _ _ _ => q end.

(** [data[k]] *)
Definition subscript (data : gmap string value) (k : string) : result value :=
  match data !! k with
  | Some v => Ok v
  | None => Raise (KeyError k)
  end.

(** [data.get(k, default)] *)
Definition get (data : gmap string value) (k : string) (default : value) : value :=
  match data !! k with
  | Some v => v
  | None => default
  end.

(** Use of a value as a number in arithmetic or in a format
    specification such as [:.0f]. *)
Definition as_num (v : value) : result Q :=
  match v with
  | VNum q => Ok q
  | _ => Raise TypeError
  end.

(** [v == "s"] between an arbitrary value and a string literal. *)
Definition eq_str (v : value) (s : string) : bool :=
  match v with
  | VStr t => bool_decide (t = s)
  | _ => false
  end.

(** [data["financial_metrics"][0]] *)
Definition first_metrics (data : gmap string value) : result metrics :=
  let* v := subscript data "financial_metrics" in
  match v with
  | VMetrics (m :: _) => Ok m
  | VMetrics [] => Raise IndexError
  | _ => Raise TypeError
  end.

(** ** Risk Manager ([risk_manager.py]) *)

Module Risk.

Open Scope Q_scope.

(** Lines 33-36. *)
Definition market_risk (m : metrics) : Q :=
  Py.min 1 (Py.max 0 (beta m / 2)).
Definition size_risk (m : metrics) : Q :=
  1 - Py.min 1 (market_cap m / 1000000000000).
Definition leverage_risk (m : metrics) : Q :=
  Py.min 1 (debt_to_equity m / 2).
Definition liquidity_risk (m : metrics) : Q :=
  Py.max 0 (1 - current_ratio m / 2).

(** Lines 39-47. *)
Definition total_risk_score (m : metrics) : Q :=
  market_risk m * (3#10) + size_risk m * (2#10)
  + leverage_risk m * (3#10) + liquidity_risk m * (2#10).

Definition base_position (m : metrics) : Q := 1 - total_risk_score m.

(** [sum(conf for sig, conf in signals if sig == tag)]: only the
    confidences of the selected pairs are added, starting from 0. *)
Fixpoint weight (tag : string) (signals : list (value * value)) (acc : Q) : result Q :=
  match signals with
  | [] => Ok acc
  | (sig, conf) :: rest =>
      if eq_str sig tag
      then let* c := as_num conf in weight tag rest (acc + c)
      else weight tag rest acc
  end.

(** Lines 61-72: the published signal and the capped position size. *)
Definition decide_position (base bullish_weight bearish_weight : Q) : string * Q :=
  let '(signal, position_size) :=
    if Py.gt bullish_weight bearish_weight
    then ("bullish", base * Py.min 1 bullish_weight)
    else if Py.gt bearish_weight bullish_weight
    then ("bearish", base * Py.min 1 bearish_weight)
    else ("neutral", 0) in
  (signal, Py.min (8#10) position_size).

(** Lines 50-55. *)
Definition signals (data : gmap string value) : list (value * value) :=
  [ (get data "fundamentals_signal" (VStr "neutral"),
     get data "fundamentals_confidence" (VNum (1#2)));
    (get data "technical_signal" (VStr "neutral"),
     get data "technical_confidence" (VNum (1#2)));
    (get data "sentiment_signal" (VStr "neutral"),
     get data "sentiment_confidence" (VNum (1#2)));
    (get data "valuation_signal" (VStr "neutral"),
     get data "valuation_confidence" (VNum (1#2))) ].

Definition risk_management_agent (data : gmap string value)
  : result (gmap string value) :=
  let* m := first_metrics data in
  let* bullish_weight := weight "bullish" (signals data) 0 in
  let* bearish_weight := weight "bearish" (signals data) 0 in
  let '(signal, position_size) :=
    decide_position (base_position m) bullish_weight bearish_weight in
  Ok (<["position_size" := VNum position_size]>
        (<["risk_signal" := VStr signal]> data)).

End Risk.

(** ** Fundamentals Analyzer ([fundamentals.py]) *)

Module Fundamentals.

Open Scope Z_scope.

(** [score += 1] under a test. *)
Definition incr_if (b : bool) (score : Z) : Z := if b then score + 1 else score.

(** Lines 19-25. *)
Definition profitability_score (m : metrics) : Z :=
  incr_if (Py.gt (operating_margin m) (15#100))
    (incr_if (Py.gt (net_margin m) (20#100))
       (incr_if (Py.gt (return_on_equity m) (15#100)) 0)).

(** Lines 34-40. *)
Definition growth_score (m : metrics) : Z :=
  incr_if (Py.gt (book_value_growth m) (10#100))
    (incr_if (Py.gt (earnings_growth m) (10#100))
       (incr_if (Py.gt (revenue_growth m) (10#100)) 0)).

(** Lines 49-55. *)
Definition health_score (m : metrics) : Z :=
  incr_if (Py.gt (quick_ratio m) 1)
    (incr_if (Py.gt (current_ratio m) (15#10))
       (incr_if (Py.lt (debt_to_equity m) 1) 0)).

(** Lines 64-68. *)
Definition cash_flow_score (m : metrics) : Z :=
  incr_if (Py.gt (free_cash_flow_per_share m) 0)
    (incr_if (Py.gt (free_cash_flow_per_share m)
                (earnings_per_share m * (8#10))%Q) 0).

(** Lines 77-88. *)
Definition valuation_score (m : metrics) : Z :=
  incr_if (Py.lt (price_to_sales m) 10)
    (incr_if (Py.lt (price_to_book m) 5)
       (incr_if (Py.gt (price_to_earnings m) 0 && Py.lt (price_to_earnings m) 30) 0)).

(** ['bullish' if score >= 2 else 'bearish' if score == 0 else 'neutral'] *)
Definition cut_ge2 (score : Z) : string :=
  if 2 <=? score then "bullish" else if score =? 0 then "bearish" else "neutral".

(** ['bullish' if score == 2 else 'bearish' if score == 0 else 'neutral'] *)
Definition cut_eq2 (score : Z) : string :=
  if score =? 2 then "bullish" else if score =? 0 then "bearish" else "neutral".

(** The list [signals] after the five [append]s. *)
Definition sub_signals (m : metrics) : list string :=
  [ cut_ge2 (profitability_score m);
    cut_ge2 (growth_score m);
    cut_ge2 (health_score m);
    cut_eq2 (cash_flow_score m);
    cut_ge2 (valuation_score m) ].

(** [len([s for s in signals if s == tag])] *)
Definition count (tag : string) (signals : list string) : Z :=
  Z.of_nat (length (filter (fun s => s = tag) signals)).

(** Lines 97-109. *)
Definition aggregate (signals : list string) : string * Q :=
  let bullish_count := count "bullish" signals in
  let bearish_count := count "bearish" signals in
  if (bearish_count <? bullish_count) && (3 <=? bullish_count)
  then ("bullish",
        Py.min 1 (inject_Z (bullish_count - bearish_count)
                  / inject_Z (Z.of_nat (length signals))))
  else if (bullish_count <? bearish_count) && (3 <=? bearish_count)
  then ("bearish",
        Py.min 1 (inject_Z (bearish_count - bullish_count)
                  / inject_Z (Z.of_nat (length signals))))
  else ("neutral", 1#2).

Definition analyse (m : metrics) : string * Q := aggregate (sub_signals m).

Definition fundamentals_agent (data : gmap string value)
  : result (gmap string value) :=
  let* m := first_metrics data in
  let '(final_signal, confidence) := analyse m in
  Ok (<["fundamentals_confidence" := VNum confidence]>
        (<["fundamentals_signal" := VStr final_signal]> data)).

End Fundamentals.

(** ** Sentiment Analyzer ([sentiment.py]) *)

Module Sentiment.

Open Scope Q_scope.

(** [pd.Series([...]).dropna()] *)
Definition dropna (l : list (option Q)) : list Q := omap id l.

(** [float(s.mean()) if not s.empty else 0] *)
Definition mean_or_0 (s : list Q) : Q :=
  match s with
  | [] => 0
  | _ => Py.sum s / inject_Z (Z.of_nat (length s))
  end.

(** [float(s.sum()) if not s.empty else 0] *)
Definition sum_or_0 (s : list Q) : Q :=
  match s with
  | [] => 0
  | _ => Py.sum s
  end.

(** The dict [sentiment_metrics["insider_metrics"]]. *)
Record insider_metrics : Type := {
  total_transactions : Z;
  avg_transaction_size : Q;
  total_value : Q;
  buy_ratio : Q
}.

(** [len([t for t in insider_trades if t["transaction_type"] == "buy"])] *)
Definition buys (insider_trades : list insider_trade) : Z :=
  Z.of_nat (length (filter (fun t => transaction_type t = "buy") insider_trades)).

(** Lines 18-54. *)
Definition analyse (insider_trades : list insider_trade)
  : insider_metrics * string * Q :=
  match insider_trades with
  | _ :: _ =>
      let transaction_shares := dropna (map shares insider_trades) in
      let transaction_values := dropna (map value_ insider_trades) in
      let im :=
        {| total_transactions := Z.of_nat (length insider_trades);
           avg_transaction_size := mean_or_0 transaction_shares;
           total_value := sum_or_0 transaction_values;
           buy_ratio := inject_Z (buys insider_trades)
                        / inject_Z (Z.of_nat (length insider_trades)) |} in
      if Py.gt (buy_ratio im) (7#10) && Py.gt (total_value im) 1000000
      then (im, "bullish", Py.min 1 (buy_ratio im))
      else if Py.lt (buy_ratio im) (3#10) && Py.gt (total_value im) 1000000
      then (im, "bearish", Py.min 1 (1 - buy_ratio im))
      else (im, "neutral", 1#2)
  | [] =>
      ({| total_transactions := 0; avg_transaction_size := 0;
          total_value := 0; buy_ratio := 0 |}, "neutral", 1#2)
  end.

(** [data["insider_trades"]] as lines 18-21 use it.  A falsy value (an
    empty list or string, the number 0) takes the branch of line 45 as
    the empty list of trades does.  A truthy value that is not a list
    of trades fails in the comprehension of line 20: a list of other
    dicts has no ['shares'], and a number cannot be iterated nor a
    character or a dict key subscripted by a string. *)
Definition trades_of (data : gmap string value) : result (list insider_trade) :=
  let* v := subscript data "insider_trades" in
  match v with
  | VTrades ts => Ok ts
  | VStr "" => Ok []
  | VNum q => if Qeq_bool q 0 then Ok [] else Raise TypeError
  | VMetrics [] => Ok []
  | VPrices [] => Ok []
  | VMetrics (_ :: _) => Raise (KeyError "shares")
  | VPrices (_ :: _) => Raise (KeyError "shares")
  | _ => Raise TypeError
  end.

Definition sentiment_agent (data : gmap string value)
  : result (gmap string value) :=
  let* insider_trades := trades_of data in
  let '(_, final_signal, final_confidence) := analyse insider_trades in
  Ok (<["sentiment_confidence" := VNum final_confidence]>
        (<["sentiment_signal" := VStr final_signal]> data)).

End Sentiment.

(** ** Portfolio Manager ([portfolio_manager.py]) *)

Module Portfolio.

Open Scope Q_scope.

(** Lines 28-32. *)
Definition total_portfolio_value (p : portfolio) (current_price : Q) : Q :=
  cash p + inject_Z (stock p) * current_price.

Definition target_position_value (p : portfolio) (current_price position_size : Q) : Q :=
  total_portfolio_value p current_price * position_size.

Definition target_shares (p : portfolio) (current_price position_size : Q) : Z :=
  if Py.gt current_price 0
  then Py.int (target_position_value p current_price position_size / current_price)
  else 0%Z.

(** Lines 36-44: the order for given target and held shares. *)
Definition order (target current_shares : Z) : string * Z :=
  if (current_shares <? target)%Z then ("buy", (target - current_shares)%Z)
  else if (target <? current_shares)%Z then ("sell", (current_shares - target)%Z)
  else ("hold", 0%Z).

Definition decide (p : portfolio) (current_price position_size : Q) : string * Z :=
  order (target_shares p current_price position_size) (stock p).

(** [data["portfolio"]] used as a portfolio dict. *)
Definition portfolio_of (data : gmap string value) : result portfolio :=
  let* v := subscript data "portfolio" in
  match v with
  | VPortfolio p => Ok p
  | _ => Raise TypeError
  end.

(** [data["prices"][-1]["close"]] *)
Definition last_close (data : gmap string value) : result Q :=
  let* v := subscript data "prices" in
  match v with
  | VPrices ps =>
      match last ps with
      | Some bar => Ok (close bar)
      | None => Raise IndexError
      end
  | _ => Raise TypeError
  end.

(** The dict [decision] of lines 47-65. *)
Definition make_decision (data : gmap string value) : result decision :=
  let* p := portfolio_of data in
  let fundamentals_signal := get data "fundamentals_signal" (VStr "neutral") in
  let fundamentals_confidence := get data "fundamentals_confidence" (VNum (1#2)) in
  let technical_signal := get data "technical_signal" (VStr "neutral") in
  let technical_confidence := get data "technical_confidence" (VNum (1#2)) in
  let sentiment_signal := get data "sentiment_signal" (VStr "neutral") in
  let sentiment_confidence := get data "sentiment_confidence" (VNum (1#2)) in
  let valuation_signal := get data "valuation_signal" (VStr "neutral") in
  let valuation_confidence := get data "valuation_confidence" (VNum (1#2)) in
  let risk_signal := get data "risk_signal" (VStr "neutral") in
  let position_size := get data "position_size" (VNum 0) in
  let* current_price := last_close data in
  let* ps := as_num position_size in
  let '(action, quantity) := decide p current_price ps in
  let* fc := as_num fundamentals_confidence in
  let* tc := as_num technical_confidence in
  let* sc := as_num sentiment_confidence in
  let* vc := as_num valuation_confidence in
  Ok (Decision action quantity
        fundamentals_signal fc technical_signal tc
        sentiment_signal sc valuation_signal vc
        risk_signal ps
        (stock p) (target_shares p current_price ps)
        current_price (total_portfolio_value p current_price)).

Definition portfolio_management_agent (data : gmap string value)
  : result (gmap string value) :=
  let* decision := make_decision data in
  Ok (<["final_decision" := VDecision decision]> data).

End Portfolio.

(** ** The sub-signals of the Fundamentals Analyzer as the
    specification words them

    Spec section 4.1, for comparison with [Fundamentals.sub_signals]: a
    signal is one of three names, a sub-score is the number of
    threshold tests that pass, and fixed cut points map it to a
    signal. *)

Module Spec.

Open Scope Q_scope.

Inductive Signal : Type := bullish | bearish | neutral.

#[global] Instance Signal_eq_dec : EqDecision Signal.
Proof. solve_decision. Defined.

Definition name (s : Signal) : string :=
  match s with
  | bullish => "bullish"
  | bearish => "bearish"
  | neutral => "neutral"
  end.

#[global] Instance Qlt_dec : RelDecision Qlt :=
  fun a b =>
    match Qlt_le_dec a b with
    | left H => left H
    | right H => right (Qle_not_lt _ _ H)
    end.

(** Number of tests that pass. *)
Definition score (tests : list bool) : nat :=
  length (filter (fun b : bool => b = true) tests).

(** "bullish if score>=2, bearish if score=0, else neutral" *)
Definition cut_2_0 (n : nat) : Signal :=
  match n with
  | O => bearish
  | 1%nat => neutral
  | _ => bullish
  end.

(** "bullish only if both tests pass (score=2), bearish if score=0,
    else neutral" *)
Definition cut_both (n : nat) : Signal :=
  match n with
  | O => bearish
  | 2%nat => bullish
  | _ => neutral
  end.

Definition profitability (m : metrics) : Signal :=
  cut_2_0 (score [ bool_decide (15#100 < return_on_equity m);
                   bool_decide (20#100 < net_margin m);
                   bool_decide (15#100 < operating_margin m) ]).

Definition growth (m : metrics) : Signal :=
  cut_2_0 (score [ bool_decide (10#100 < revenue_growth m);
                   bool_decide (10#100 < earnings_growth m);
                   bool_decide (10#100 < book_value_growth m) ]).

Definition health (m : metrics) : Signal :=
  cut_2_0 (score [ bool_decide (debt_to_equity m < 1);
                   bool_decide (15#10 < current_ratio m);
                   bool_decide (1 < quick_ratio m) ]).

Definition cash_flow (m : metrics) : Signal :=
  cut_both (score [ bool_decide ((8#10) * earnings_per_share m
                                 < free_cash_flow_per_share m);
                    bool_decide (0 < free_cash_flow_per_share m) ]).

Definition valuation (m : metrics) : Signal :=
  cut_2_0 (score [ bool_decide (0 < price_to_earnings m)
                   && bool_decide (price_to_earnings m < 30);
                   bool_decide (price_to_book m < 5);
                   bool_decide (price_to_sales m < 10) ]).

Definition sub_signals (m : metrics) : list Signal :=
  [ profitability m; growth m; health m; cash_flow m; valuation m ].

End Spec.

(** ** Typing of the upstream fields and concrete contexts *)

Definition is_num (v : value) : bool :=
  match v with VNum _ => true | _ => false end.

(** The four confidences read by the Risk Manager and the Portfolio
    Manager are numbers (absent ones default to 0.5). *)
Definition confidences_numeric (data : gmap string value) : Prop :=
  Forall (fun sc : value * value => is_num sc.2 = true) (Risk.signals data).

(** What the spec calls "sum confidence over the input signals tagged
    [tag]". *)
Fixpoint sum_tagged (tag : string) (signals : list (value * value)) : Q :=
  match signals with
  | [] => 0
  | (sig, conf) :: rest =>
      ((if eq_str sig tag then match conf with VNum q => q | _ => 0 end else 0)
       + sum_tagged tag rest)%Q
  end.

Module Examples.

Open Scope Q_scope.

(** A metrics record with the four fields the Risk Manager reads. *)
Definition risk_inputs (b mc de cr : Q) : metrics :=
  {| return_on_equity := 0; net_margin := 0; operating_margin := 0;
     revenue_growth := 0; earnings_growth := 0; book_value_growth := 0;
     debt_to_equity := de; current_ratio := cr; quick_ratio := 0;
     free_cash_flow_per_share := 0; earnings_per_share := 0;
     price_to_earnings := 0; price_to_book := 0; price_to_sales := 0;
     beta := b; market_cap := mc |}.

(** The scenario metrics of the Fundamentals Analyzer. *)
Definition scenario_metrics (b mc : Q) : metrics :=
  {| return_on_equity := 20#100; net_margin := 25#100; operating_margin := 18#100;
     revenue_growth := 15#100; earnings_growth := 12#100; book_value_growth := 5#100;
     debt_to_equity := 5#10; current_ratio := 2; quick_ratio := 12#10;
     free_cash_flow_per_share := 2; earnings_per_share := 2;
     price_to_earnings := 20; price_to_book := 3; price_to_sales := 5;
     beta := b; market_cap := mc |}.

(** A context with a metrics record and one bullish upstream signal of
    confidence 1; the other three signals are absent. *)
Definition context (m : metrics) : gmap string value :=
  <["financial_metrics" := VMetrics [m]]>
    (<["fundamentals_signal" := VStr "bullish"]>
       (<["fundamentals_confidence" := VNum 1]> ∅)).

(** beta = 100, debt_to_equity = 50. *)
Definition adversarial : gmap string value :=
  context (risk_inputs 100 1000 50 1).

(** beta = 4, market_cap = 2e12, debt_to_equity = 0, current_ratio = 3. *)
Definition scenario_risk : metrics := risk_inputs 4 2000000000000 0 3.

(** market_cap = -1e13. *)
Definition negative_cap : gmap string value :=
  context (risk_inputs 1 (-10000000000000) 1 2).

Definition trade (sh v : Q) (ty : string) : insider_trade :=
  {| shares := Some sh; value_ := Some v; transaction_type := ty |}.

(** Four purchases of 500000 each. *)
Definition insider_buys : list insider_trade :=
  [ trade 100 500000 "buy"; trade 200 500000 "buy";
    trade 300 500000 "buy"; trade 400 500000 "buy" ].

(** A full context for the Portfolio Manager. *)
Definition pm_context (p : portfolio) (price position_size : Q)
  : gmap string value :=
  <["portfolio" := VPortfolio p]>
    (<["prices" := VPrices [ {| close := 1 |}; {| close := price |} ]]>
       (<["position_size" := VNum position_size]>
          (<["risk_signal" := VStr "bullish"]> ∅))).

End Examples.

(** ** Observations on a stage *)

(** The order (action, quantity) a run of the Portfolio Manager
    publishes under ["final_decision"], if it publishes one. *)
Definition order_published (r : result (gmap string value)) : option (string * Z) :=
  match r with
  | Ok out =>
      match out !! "final_decision" with
      | Some (VDecision d) => Some (action d, quantity d)
      | _ => None
      end
  | Raise _ => None
  end.

(** The three reads of the Portfolio Manager that feed its numeric
    decision: the portfolio, the last close and the position size. *)
Definition reads (data : gmap string value) : result (portfolio * Q * Q) :=
  let* p := Portfolio.portfolio_of data in
  let* current_price := Portfolio.last_close data in
  let* ps := as_num (get data "position_size" (VNum 0)) in
  Ok (p, current_price, ps).

(** [out] extends [data] by the keys [published] and agrees with it on
    every other key. *)
Definition frame (data out : gmap string value) (published : list string) : Prop :=
  (forall k, k ∉ published -> out !! k = data !! k)
  /\ dom out = dom data ∪ list_to_set published.

(** A confidence that is a number and not negative. *)
Definition nonneg_num (v : value) : bool :=
  match v with
  | VNum q => Qle_bool 0 q
  | _ => false
  end.

(** The four confidences read by the Risk Manager are non-negative
    numbers (absent ones default to 0.5). *)
Definition confidences_nonneg (data : gmap string value) : Prop :=
  Forall (fun sc : value * value => nonneg_num sc.2 = true) (Risk.signals data).

(** ** Data provider ([tools/api.py])

    What yfinance hands over is an input of the model: the ticker's
    [info] dict (its values numbers), the statement frames (a list of
    rows by position, a row a map from column to number), the insider
    purchases and the price history.  [strftime] of a date is a
    parameter. *)

Module Api.

Open Scope Q_scope.

(** [info.get(key, default)] *)
Definition info_get (info : gmap string Q) (key : string) (default : Q) : Q :=
  match info !! key with
  | Some q => q
  | None => default
  end.

(** [row.get(column, 0)] followed by [float]. *)
Definition row_get (row : gmap string Q) (column : string) : Q :=
  match row !! column with
  | Some q => q
  | None => 0
  end.

(** [frame.iloc[i]] *)
Definition iloc (frame : list (gmap string Q)) (i : nat) : result (gmap string Q) :=
  match frame !! i with
  | Some row => Ok row
  | None => Raise IndexError
  end.

(** [try: body except (IndexError, TypeError): handler] *)
Definition try_except {A} (body handler : result A) : result A :=
  match body with
  | Ok a => Ok a
  | Raise IndexError => handler
  | Raise TypeError => handler
  | Raise e => Raise e
  end.

(** The dict built on lines 37-57: the sixteen keys the agents read, as
    a [metrics] record, and the three they do not read. *)
Record financial_metrics : Type := {
  agent_metrics : metrics;
  dividend_yield : Q;
  payout_ratio : Q;
  shares_outstanding : Q
}.

(** Lines 20-34: earnings and free cash flow per share. *)
Definition per_share (info : gmap string Q)
    (financials cash_flow : list (gmap string Q)) : result (Q * Q) :=
  let shares_outstanding := info_get info "sharesOutstanding" 0 in
  if Py.gt shares_outstanding 0
  then
    try_except
      (let* r0 := iloc financials 0 in
       let net_income := row_get r0 "Net Income" in
       let* c0 := iloc cash_flow 0 in
       let free_cash_flow := row_get c0 "Free Cash Flow" in
       Ok (net_income / shares_outstanding, free_cash_flow / shares_outstanding))
      (Ok (info_get info "trailingEps" 0, 0))
  else Ok (info_get info "trailingEps" 0, 0).

(** [info.get(key, 0) if info.get(key) else 0]: an absent key and a zero
    are both falsy. *)
Definition info_get_truthy (info : gmap string Q) (key : string) : Q :=
  match info !! key with
  | Some q => if Qeq_bool q 0 then 0 else info_get info key 0
  | None => 0
  end.

Definition get_financial_metrics (info : gmap string Q)
    (financials cash_flow : list (gmap string Q))
  : result (list financial_metrics) :=
  let* eps_fcf := per_share info financials cash_flow in
  let '(earnings_per_share_, free_cash_flow_per_share_) := eps_fcf in
  let metrics_ :=
    {| agent_metrics :=
         {| return_on_equity := info_get info "returnOnEquity" 0;
            net_margin := info_get info "profitMargins" 0;
            operating_margin := info_get info "operatingMargins" 0;
            revenue_growth := info_get info "revenueGrowth" 0;
            earnings_growth := info_get info "earningsGrowth" 0;
            book_value_growth :=
              if Py.gt (info_get info "priceToBook" 0) 0
              then info_get info "bookValue" 0 / info_get info "priceToBook" 1
              else 0;
            debt_to_equity := info_get info "debtToEquity" 0;
            current_ratio := info_get info "currentRatio" 0;
            quick_ratio := info_get info "quickRatio" 0;
            free_cash_flow_per_share := free_cash_flow_per_share_;
            earnings_per_share := earnings_per_share_;
            price_to_earnings := info_get info "trailingPE" 0;
            price_to_book := info_get info "priceToBook" 0;
            price_to_sales := info_get info "priceToSalesTrailing12Months" 0;
            beta := info_get info "beta" 0;
            market_cap := info_get info "marketCap" 0 |};
       dividend_yield := info_get_truthy info "dividendYield";
       payout_ratio := info_get_truthy info "payoutRatio";
       shares_outstanding := info_get info "sharesOutstanding" 0 |} in
  Ok [metrics_].

(** [if item in line_items and i < len(frame.index):
       result[item] = float(frame.iloc[i].get(column, 0))] *)
Definition add_item (line_items : list string) (frame : list (gmap string Q))
    (i : nat) (item column : string) (result : gmap string Q) : gmap string Q :=
  if bool_decide (item ∈ line_items) && bool_decide (i < length frame)%nat
  then match frame !! i with
       | Some row => <[item := row_get row column]> result
       | None => result
       end
  else result.

(** Lines 78-93: the dict of period [i]. *)
Definition period (line_items : list string)
    (financials cash_flow balance_sheet : list (gmap string Q)) (i : nat)
  : gmap string Q :=
  let result := ∅ in
  let result := add_item line_items cash_flow i "free_cash_flow" "Free Cash Flow" result in
  let result := add_item line_items financials i "net_income" "Net Income" result in
  let result :=
    add_item line_items cash_flow i "depreciation_and_amortization" "Depreciation" result in
  let result :=
    add_item line_items cash_flow i "capital_expenditure" "Capital Expenditure" result in
  if bool_decide ("working_capital" ∈ line_items)
     && bool_decide (i < length balance_sheet)%nat
  then match balance_sheet !! i with
       | Some row =>
           let current_assets := row_get row "Total Current Assets" in
           let current_liabilities := row_get row "Total Current Liabilities" in
           <["working_capital" := current_assets - current_liabilities]> result
       | None => result
       end
  else result.

(** [results.append(results[-1] if results else {})] *)
Definition pad_once (results : list (gmap string Q)) : list (gmap string Q) :=
  results ++ [match last results with Some r => r | None => ∅ end].

(** [while len(results) < limit: ...]: one pass per missing entry. *)
Definition pad (limit : Z) (results : list (gmap string Q)) : list (gmap string Q) :=
  Nat.iter (Z.to_nat limit - length results) pad_once results.

Definition search_line_items (line_items : list string) (limit : Z)
    (financials cash_flow balance_sheet : list (gmap string Q))
  : list (gmap string Q) :=
  let results :=
    map (period line_items financials cash_flow balance_sheet)
        (seq 0 (Z.to_nat (Z.min limit (Z.of_nat (length financials))))) in
  pad limit results.

Section Dated.

(** Dates and [date.strftime("%Y-%m-%d")]. *)
Variable datetime : Type.
Variable strftime : datetime -> string.

(** A ["Date"] cell: a timestamp, or something else shown by [str]. *)
Inductive date_cell : Type :=
| Timestamp (d : datetime)
| Other (s : string).

(** A row of [stock.insider_purchases]; [None] is a column the row does
    not have, and a ["Shares"] or ["Value"] cell may hold NaN
    ([Some None]). *)
Record purchase_row : Type := {
  Date : option date_cell;
  Insider : option string;
  Shares : option (option Q);
  Value : option (option Q)
}.

(** The dict appended on lines 123-129: date and name, and the three
    keys the Sentiment Analyzer reads. *)
Record trade_dict : Type := {
  date : string;
  insider_name : string;
  trade : insider_trade
}.

(** [frame.head(n)]: the first [n] rows, or all but the last [-n]. *)
Definition head {A} (n : Z) (rows : list A) : list A :=
  if (0 <=? n)%Z then take (Z.to_nat n) rows
  else take (length rows - Z.to_nat (- n)) rows.

(** Lines 116-121. *)
Definition date_str (c : option date_cell) : string :=
  match c with
  | Some (Timestamp d) => strftime d
  | Some (Other s) => s
  | None => ""
  end.

(** [float(trade.get(column, 0))]; NaN is [None]. *)
Definition float_cell (c : option (option Q)) : option Q :=
  match c with
  | Some x => x
  | None => Some 0
  end.

Definition trade_of_row (row : purchase_row) : trade_dict :=
  {| date := date_str (Date row);
     insider_name := match Insider row with Some s => s | None => "" end;
     trade := {| shares := float_cell (Shares row);
                 value_ := float_cell (Value row);
                 transaction_type := "buy" |} |}.

(** [insider_purchases] is [None] when yfinance has no frame. *)
Definition get_insider_trades (insider_purchases : option (list purchase_row))
    (limit : Z) : list trade_dict :=
  match insider_purchases with
  | None => []
  | Some [] => []
  | Some rows => map trade_of_row (head limit rows)
  end.

(** A row of [stock.history(...)]. *)
Record history_row : Type := {
  index : datetime;
  Open : Q;
  High : Q;
  Low : Q;
  Close : Q;
  Volume : Q
}.

(** The dict appended on lines 150-157; ["close"] is held by [bar]. *)
Record price_dict : Type := {
  time : string;
  open : Q;
  high : Q;
  low : Q;
  bar : price_bar;
  volume : Q
}.

Definition get_prices (history : list history_row) : list price_dict :=
  map (fun row =>
         {| time := strftime (index row);
            open := Open row;
            high := High row;
            low := Low row;
            bar := {| close := Close row |};
            volume := Volume row |})
      history.

End Dated.

End Api.

(** ** The agents in binary64 arithmetic

    A Python [float] is an IEEE 754 binary64 number and its [+], [-],
    [*], [/] and comparisons are the correctly rounded operations; these
    are the primitive [float] of Rocq and its operations.  The module
    below is the embedding of the four agents over them.  It is the
    model for the statements in which the value of a sum, a product or
    a quotient decides a branch or is truncated to an integer.  A Python
    [int] that the code mixes into float arithmetic (the literals [0],
    [1], [2], [5], [1000000], a share or signal count) is converted as
    Python converts it; an [int] stored where a float is expected (the
    [position_size = 0] of line 68 of the Risk Manager, a zero metric)
    is held as the float of the same value. *)

Module F64.

Open Scope float_scope.

(** *** Python built-ins *)

Module Py.

(** [min(a, b)]: the first argument is kept unless the second is
    strictly smaller; a comparison with NaN is false. *)
Definition min (a b : float) : float := if b <? a then b else a.

(** [max(a, b)]: the first argument is kept unless the second is
    strictly larger. *)
Definition max (a b : float) : float := if a <? b then b else a.

(** [a > b] and [a < b]. *)
Definition gt (a b : float) : bool := b <? a.
Definition lt (a b : float) : bool := a <? b.

(** The float nearest to an integer (ties to even), infinite when the
    integer is out of range. *)
Definition nearest (n : Z) : float :=
  SF2Prim (binary_normalize prec emax n 0 false).

(** The conversion of an [int] operand of a float operation; it raises
    when the integer is too large for a float. *)
Definition float_of_int (n : Z) : result float :=
  if is_infinity (nearest n) then Raise OverflowError else Ok (nearest n).

(** [a / b] for two counts (below 2^53, where the conversions are
    exact and CPython divides the two floats), [b] not zero. *)
Definition truediv (a b : Z) : float := nearest a / nearest b.

(** The rational a finite float stands for. *)
Definition exact (x : float) : option Q :=
  match Prim2SF x with
  | S754_zero _ => Some 0%Q
  | S754_finite s m e =>
      Some (inject_Z (if s then Zneg m else Zpos m) * Qpower 2 e)%Q
  | S754_infinity _ => None
  | S754_nan => None
  end.

(** [int(x)]: the value truncated toward zero; it raises on an infinity
    and on NaN. *)
Definition int (x : float) : result Z :=
  match Prim2SF x with
  | S754_infinity _ => Raise OverflowError
  | S754_nan => Raise ValueError
  | _ =>
      match exact x with
      | Some q => Ok (Z.quot (Qnum q) (Zpos (Qden q)))
      | None => Raise ValueError
      end
  end.

(** [math.floor(x)], for comparison with [int]. *)
Definition floor (x : float) : result Z :=
  match Prim2SF x with
  | S754_infinity _ => Raise OverflowError
  | S754_nan => Raise ValueError
  | _ =>
      match exact x with
      | Some q => Ok (Qfloor q)
      | None => Raise ValueError
      end
  end.

End Py.

(** *** Values held by the decision context *)

Record metrics : Type := {
  return_on_equity : float;
  net_margin : float;
  operating_margin : float;
  revenue_growth : float;
  earnings_growth : float;
  book_value_growth : float;
  debt_to_equity : float;
  current_ratio : float;
  quick_ratio : float;
  free_cash_flow_per_share : float;
  earnings_per_share : float;
  price_to_earnings : float;
  price_to_book : float;
  price_to_sales : float;
  beta : float;
  market_cap : float
}.

(** An insider trade; [shares] and [value] may be [None], or NaN. *)
Record insider_trade : Type := {
  shares : option float;
  value_ : option float;
  transaction_type : string
}.

Record portfolio : Type := {
  cash : float;
  stock : Z
}.

Record price_bar : Type := { close : float }.

(** The values of the dict, and the dict [decision] of the Portfolio
    Manager: the order, the upstream signals as read, the numbers
    formatted next to them (times 100, before formatting) and the
    portfolio figures. *)
Inductive value : Type :=
| VStr (s : string)
| VNum (x : float)
| VMetrics (ms : list metrics)
| VTrades (ts : list insider_trade)
| VPortfolio (p : portfolio)
| VPrices (ps : list price_bar)
| VDecision (d : decision)
with decision : Type :=
| Decision (action : string) (quantity : Z)
    (fundamentals_signal : value) (fundamentals_percent : float)
    (technical_signal : value) (technical_percent : float)
    (sentiment_signal : value) (sentiment_percent : float)
    (valuation_signal : value) (valuation_percent : float)
    (risk_signal : value) (position_percent : float)
    (current_shares target_shares : Z) (current_price total_value : float).

Definition action (d : decision) : string :=
  match d with Decision a _ _ _ _ _ _ _ _ _ _ _ _ _ _ _ => a end.
Definition quantity (d : decision) : Z :=
  match d with Decision _ q _ _ _ _ _ _ _ _ _ _ _ _ _ _ => q end.

(** [data[k]] *)
Definition subscript (data : gmap string value) (k : string) : result value :=
  match data !! k with
  | Some v => Ok v
  | None => Raise (KeyError k)
  end.

(** [data.get(k, default)] *)
Definition get (data : gmap string value) (k : string) (default : value) : value :=
  match data !! k with
  | Some v => v
  | None => default
  end.

(** A value as an operand of float arithmetic. *)
Definition as_num (v : value) : result float :=
  match v with
  | VNum x => Ok x
  | _ => Raise TypeError
  end.

(** [v == "s"] between an arbitrary value and a string literal. *)
Definition eq_str (v : value) (s : string) : bool :=
  match v with
  | VStr t => bool_decide (t = s)
  | _ => false
  end.

(** [metrics = data["financial_metrics"][0]] followed by the first
    subscript [metrics[key]] of the agent: the record of a non-empty
    list of metrics.  Other values fail where Python fails: an empty
    sequence has no item 0, a dict has no key 0, a trade or a price bar
    has no [key], and a number or a character takes no subscript. *)
Definition first_metrics (data : gmap string value) (key : string) : result metrics :=
  let* v := subscript data "financial_metrics" in
  match v with
  | VMetrics (m :: _) => Ok m
  | VMetrics [] => Raise IndexError
  | VTrades [] => Raise IndexError
  | VPrices [] => Raise IndexError
  | VStr "" => Raise IndexError
  | VTrades (_ :: _) => Raise (KeyError key)
  | VPrices (_ :: _) => Raise (KeyError key)
  | VPortfolio _ => Raise (KeyError "0")
  | VDecision _ => Raise (KeyError "0")
  | _ => Raise TypeError
  end.

(** *** Risk Manager ([risk_manager.py]) *)

Module Risk.

(** Lines 33-36. *)
Definition market_risk (m : metrics) : float :=
  Py.min 1.0 (Py.max 0.0 (beta m / 2)).
Definition size_risk (m : metrics) : float :=
  1.0 - Py.min 1.0 (market_cap m / 1e12).
Definition leverage_risk (m : metrics) : float :=
  Py.min 1.0 (debt_to_equity m / 2).
Definition liquidity_risk (m : metrics) : float :=
  Py.max 0.0 (1.0 - current_ratio m / 2).

(** Lines 39-47. *)
Definition total_risk_score (m : metrics) : float :=
  market_risk m * 0.3 + size_risk m * 0.2
  + leverage_risk m * 0.3 + liquidity_risk m * 0.2.

Definition base_position (m : metrics) : float := 1.0 - total_risk_score m.

(** Lines 61-72: the published signal and the capped position size. *)
Definition decide_position (base bullish_weight bearish_weight : float)
  : string * float :=
  let '(signal, position_size) :=
    if Py.gt bullish_weight bearish_weight
    then ("bullish", base * Py.min 1.0 bullish_weight)
    else if Py.gt bearish_weight bullish_weight
    then ("bearish", base * Py.min 1.0 bearish_weight)
    else ("neutral", 0) in
  (signal, Py.min 0.8 position_size).

(** Lines 50-55. *)
Definition signals (data : gmap string value) : list (value * value) :=
  [ (get data "fundamentals_signal" (VStr "neutral"),
     get data "fundamentals_confidence" (VNum 0.5));
    (get data "technical_signal" (VStr "neutral"),
     get data "technical_confidence" (VNum 0.5));
    (get data "sentiment_signal" (VStr "neutral"),
     get data "sentiment_confidence" (VNum 0.5));
    (get data "valuation_signal" (VStr "neutral"),
     get data "valuation_confidence" (VNum 0.5)) ].

(** The items of the generator [conf for sig, conf in signals if sig ==
    tag], each used as a summand. *)
Fixpoint tagged (tag : string) (signals : list (value * value))
  : result (list float) :=
  match signals with
  | [] => Ok []
  | (sig, conf) :: rest =>
      if eq_str sig tag
      then let* c := as_num conf in
           let* cs := tagged tag rest in
           Ok (c :: cs)
      else tagged tag rest
  end.

Section Sum.

(** The total CPython's [sum] returns for a non-empty run of floats.
    Its additions are an implementation matter (one rounded addition
    per item from left to right up to CPython 3.11, a compensated
    summation from 3.12), so the total is a parameter. *)
Variable float_sum : list float -> float.

(** [sum(items)]: the start value 0 when there is no item. *)
Definition sum (items : list float) : float :=
  match items with
  | [] => 0
  | _ => float_sum items
  end.

(** Lines 57-58. *)
Definition weight (tag : string) (signals : list (value * value)) : result float :=
  let* items := tagged tag signals in
  Ok (sum items).

Definition risk_management_agent (data : gmap string value)
  : result (gmap string value) :=
  let* m := first_metrics data "beta" in
  let* bullish_weight := weight "bullish" (signals data) in
  let* bearish_weight := weight "bearish" (signals data) in
  let '(signal, position_size) :=
    decide_position (base_position m) bullish_weight bearish_weight in
  Ok (<["position_size" := VNum position_size]>
        (<["risk_signal" := VStr signal]> data)).

End Sum.

End Risk.

(** *** Fundamentals Analyzer ([fundamentals.py]) *)

Module Fundamentals.

(** [score += 1] under a test. *)
Definition incr_if (b : bool) (score : Z) : Z := if b then (score + 1)%Z else score.

(** ['bullish' if score >= 2 else 'bearish' if score == 0 else 'neutral'] *)
Definition cut_ge2 (score : Z) : string :=
  if (2 <=? score)%Z then "bullish"
  else if (score =? 0)%Z then "bearish" else "neutral".

(** ['bullish' if score == 2 else 'bearish' if score == 0 else 'neutral'] *)
Definition cut_eq2 (score : Z) : string :=
  if (score =? 2)%Z then "bullish"
  else if (score =? 0)%Z then "bearish" else "neutral".

(** [len([s for s in signals if s == tag])] *)
Definition count (tag : string) (signals : list string) : Z :=
  Z.of_nat (length (filter (fun s => s = tag) signals)).

(** Lines 19-25. *)
Definition profitability_score (m : metrics) : Z :=
  incr_if (Py.gt (operating_margin m) 0.15)
    (incr_if (Py.gt (net_margin m) 0.20)
       (incr_if (Py.gt (return_on_equity m) 0.15) 0)).

(** Lines 34-40. *)
Definition growth_score (m : metrics) : Z :=
  incr_if (Py.gt (book_value_growth m) 0.10)
    (incr_if (Py.gt (earnings_growth m) 0.10)
       (incr_if (Py.gt (revenue_growth m) 0.10) 0)).

(** Lines 49-55. *)
Definition health_score (m : metrics) : Z :=
  incr_if (Py.gt (quick_ratio m) 1.0)
    (incr_if (Py.gt (current_ratio m) 1.5)
       (incr_if (Py.lt (debt_to_equity m) 1.0) 0)).

(** Lines 64-68: the product of line 65 is the rounded one. *)
Definition cash_flow_score (m : metrics) : Z :=
  incr_if (Py.gt (free_cash_flow_per_share m) 0)
    (incr_if (Py.gt (free_cash_flow_per_share m)
                (earnings_per_share m * 0.8)) 0).

(** Lines 77-88. *)
Definition valuation_score (m : metrics) : Z :=
  incr_if (Py.lt (price_to_sales m) 10)
    (incr_if (Py.lt (price_to_book m) 5)
       (incr_if (Py.gt (price_to_earnings m) 0
                 && Py.lt (price_to_earnings m) 30) 0)).

(** The list [signals] after the five [append]s. *)
Definition sub_signals (m : metrics) : list string :=
  [ cut_ge2 (profitability_score m);
    cut_ge2 (growth_score m);
    cut_ge2 (health_score m);
    cut_eq2 (cash_flow_score m);
    cut_ge2 (valuation_score m) ].

(** Lines 97-109. *)
Definition aggregate (signals : list string) : string * float :=
  let bullish_count := count "bullish" signals in
  let bearish_count := count "bearish" signals in
  if ((bearish_count <? bullish_count) && (3 <=? bullish_count))%Z
  then ("bullish",
        Py.min 1.0 (Py.truediv (bullish_count - bearish_count)
                               (Z.of_nat (length signals))))
  else if ((bullish_count <? bearish_count) && (3 <=? bearish_count))%Z
  then ("bearish",
        Py.min 1.0 (Py.truediv (bearish_count - bullish_count)
                               (Z.of_nat (length signals))))
  else ("neutral", 0.5).

Definition analyse (m : metrics) : string * float := aggregate (sub_signals m).

Definition fundamentals_agent (data : gmap string value)
  : result (gmap string value) :=
  let* m := first_metrics data "return_on_equity" in
  let '(final_signal, confidence) := analyse m in
  Ok (<["fundamentals_confidence" := VNum confidence]>
        (<["fundamentals_signal" := VStr final_signal]> data)).

End Fundamentals.

(** *** Sentiment Analyzer ([sentiment.py]) *)

Module Sentiment.

(** [pd.Series([...]).dropna()]: the entries that are neither [None] nor
    NaN. *)
Definition dropna (l : list (option float)) : list float :=
  filter (fun x => is_nan x = false) (omap id l).

(** The dict [sentiment_metrics["insider_metrics"]]. *)
Record insider_metrics : Type := {
  total_transactions : Z;
  avg_transaction_size : float;
  total_value : float;
  buy_ratio : float
}.

(** [len([t for t in insider_trades if t["transaction_type"] == "buy"])] *)
Definition buys (insider_trades : list insider_trade) : Z :=
  Z.of_nat (length (filter (fun t => transaction_type t = "buy") insider_trades)).

(** [data["insider_trades"]] as lines 18-21 use it.  A falsy value (an
    empty list or string, a zero) takes the branch of line 45 as the
    empty list of trades does.  A truthy value that is not a list of
    trades fails in the comprehension of line 20: a list of other dicts
    has no ['shares'], and a number cannot be iterated nor a character
    or a dict key subscripted by a string. *)
Definition trades_of (data : gmap string value) : result (list insider_trade) :=
  let* v := subscript data "insider_trades" in
  match v with
  | VTrades ts => Ok ts
  | VStr "" => Ok []
  | VNum x => if x =? 0 then Ok [] else Raise TypeError
  | VMetrics [] => Ok []
  | VPrices [] => Ok []
  | VMetrics (_ :: _) => Raise (KeyError "shares")
  | VPrices (_ :: _) => Raise (KeyError "shares")
  | _ => Raise TypeError
  end.

Section Pandas.

(** [Series.mean()] and [Series.sum()] of a non-empty float64 series
    without NaN.  The order in which pandas and numpy add the entries
    is theirs (it is not the order of the list for every length), so
    the two reductions are parameters. *)
Variable series_mean : list float -> float.
Variable series_sum : list float -> float.

(** [float(s.mean()) if not s.empty else 0] *)
Definition mean_or_0 (s : list float) : float :=
  match s with
  | [] => 0
  | _ => series_mean s
  end.

(** [float(s.sum()) if not s.empty else 0] *)
Definition sum_or_0 (s : list float) : float :=
  match s with
  | [] => 0
  | _ => series_sum s
  end.

(** Lines 18-54. *)
Definition analyse (insider_trades : list insider_trade)
  : insider_metrics * string * float :=
  match insider_trades with
  | _ :: _ =>
      let transaction_shares := dropna (map shares insider_trades) in
      let transaction_values := dropna (map value_ insider_trades) in
      let im :=
        {| total_transactions := Z.of_nat (length insider_trades);
           avg_transaction_size := mean_or_0 transaction_shares;
           total_value := sum_or_0 transaction_values;
           buy_ratio := Py.truediv (buys insider_trades)
                                   (Z.of_nat (length insider_trades)) |} in
      if Py.gt (buy_ratio im) 0.7 && Py.gt (total_value im) 1000000
      then (im, "bullish", Py.min 1.0 (buy_ratio im))
      else if Py.lt (buy_ratio im) 0.3 && Py.gt (total_value im) 1000000
      then (im, "bearish", Py.min 1.0 (1 - buy_ratio im))
      else (im, "neutral", 0.5)
  | [] =>
      ({| total_transactions := 0; avg_transaction_size := 0;
          total_value := 0; buy_ratio := 0 |}, "neutral", 0.5)
  end.

Definition sentiment_agent (data : gmap string value)
  : result (gmap string value) :=
  let* insider_trades := trades_of data in
  let '(_, final_signal, final_confidence) := analyse insider_trades in
  Ok (<["sentiment_confidence" := VNum final_confidence]>
        (<["sentiment_signal" := VStr final_signal]> data)).

End Pandas.

End Sentiment.

(** *** Portfolio Manager ([portfolio_manager.py]) *)

Module Portfolio.

(** Line 28; the int [stock] is converted for the product. *)
Definition total_portfolio_value (p : portfolio) (current_price : float)
  : result float :=
  let* held := Py.float_of_int (stock p) in
  Ok (cash p + held * current_price).

(** Line 29. *)
Definition target_position_value (total_portfolio_value position_size : float)
  : float :=
  total_portfolio_value * position_size.

(** Line 32. *)
Definition target_shares (target_position_value current_price : float)
  : result Z :=
  if Py.gt current_price 0
  then Py.int (target_position_value / current_price)
  else Ok 0%Z.

(** Lines 36-44: the order for given target and held shares. *)
Definition order (target current_shares : Z) : string * Z :=
  if (current_shares <? target)%Z then ("buy", (target - current_shares)%Z)
  else if (target <? current_shares)%Z then ("sell", (current_shares - target)%Z)
  else ("hold", 0%Z).

(** Lines 28-44 for a portfolio, a price and a position size. *)
Definition decide (p : portfolio) (current_price position_size : float)
  : result (string * Z) :=
  let* total := total_portfolio_value p current_price in
  let* target :=
    target_shares (target_position_value total position_size) current_price in
  Ok (order target (stock p)).

(** [portfolio["cash"]] and [portfolio["stock"]] on the value read on
    line 10. *)
Definition as_portfolio (v : value) : result portfolio :=
  match v with
  | VPortfolio p => Ok p
  | VDecision _ => Raise (KeyError "cash")
  | _ => Raise TypeError
  end.

(** [data["prices"][-1]["close"]] *)
Definition last_close (data : gmap string value) : result float :=
  let* v := subscript data "prices" in
  match v with
  | VPrices ps =>
      match last ps with
      | Some bar => Ok (close bar)
      | None => Raise IndexError
      end
  | VMetrics [] => Raise IndexError
  | VTrades [] => Raise IndexError
  | VStr "" => Raise IndexError
  | VMetrics (_ :: _) => Raise (KeyError "close")
  | VTrades (_ :: _) => Raise (KeyError "close")
  | VPortfolio _ => Raise (KeyError "-1")
  | VDecision _ => Raise (KeyError "-1")
  | _ => Raise TypeError
  end.

(** [f"{confidence*100:.0f}%"]: the number that is formatted.  A string
    is repeated by [*] and then refused by the format. *)
Definition percent (v : value) : result float :=
  match v with
  | VNum x => Ok (x * 100)
  | VStr _ => Raise ValueError
  | _ => Raise TypeError
  end.

(** The dict [decision] of lines 47-65, in the order of evaluation of
    lines 10-65. *)
Definition make_decision (data : gmap string value) : result decision :=
  let* portfolio_ := subscript data "portfolio" in
  let fundamentals_signal := get data "fundamentals_signal" (VStr "neutral") in
  let fundamentals_confidence := get data "fundamentals_confidence" (VNum 0.5) in
  let technical_signal := get data "technical_signal" (VStr "neutral") in
  let technical_confidence := get data "technical_confidence" (VNum 0.5) in
  let sentiment_signal := get data "sentiment_signal" (VStr "neutral") in
  let sentiment_confidence := get data "sentiment_confidence" (VNum 0.5) in
  let valuation_signal := get data "valuation_signal" (VStr "neutral") in
  let valuation_confidence := get data "valuation_confidence" (VNum 0.5) in
  let risk_signal := get data "risk_signal" (VStr "neutral") in
  let position_size := get data "position_size" (VNum 0) in
  let* current_price := last_close data in
  let* p := as_portfolio portfolio_ in
  let* total_portfolio_value_ := total_portfolio_value p current_price in
  let* ps := as_num position_size in
  let target_position_value_ := target_position_value total_portfolio_value_ ps in
  let* target_shares_ := target_shares target_position_value_ current_price in
  let '(action, quantity) := order target_shares_ (stock p) in
  let* fc := percent fundamentals_confidence in
  let* tc := percent technical_confidence in
  let* sc := percent sentiment_confidence in
  let* vc := percent valuation_confidence in
  Ok (Decision action quantity
        fundamentals_signal fc technical_signal tc
        sentiment_signal sc valuation_signal vc
        risk_signal (ps * 100)
        (stock p) target_shares_
        current_price total_portfolio_value_).

Definition portfolio_management_agent (data : gmap string value)
  : result (gmap string value) :=
  let* decision := make_decision data in
  Ok (<["final_decision" := VDecision decision]> data).

End Portfolio.

(** *** The Fundamentals Analyzer as the specification words it

    Spec section 4.1, for comparison with [Fundamentals.analyse]: a
    sub-score is the number of threshold tests that pass, and fixed cut
    points map it to a signal. *)

Module Spec.

Inductive Signal : Type := bullish | bearish | neutral.

#[global] Instance Signal64_eq_dec : EqDecision Signal.
Proof. solve_decision. Defined.

Definition name (s : Signal) : string :=
  match s with
  | bullish => "bullish"
  | bearish => "bearish"
  | neutral => "neutral"
  end.

(** Number of tests that pass. *)
Definition score (tests : list bool) : nat :=
  length (filter (fun b : bool => b = true) tests).

(** "bullish if score>=2, bearish if score=0, else neutral" *)
Definition cut_2_0 (n : nat) : Signal :=
  match n with
  | O => bearish
  | 1%nat => neutral
  | _ => bullish
  end.

(** "bullish only if both tests pass (score=2), bearish if score=0,
    else neutral" *)
Definition cut_both (n : nat) : Signal :=
  match n with
  | O => bearish
  | 2%nat => bullish
  | _ => neutral
  end.

Definition profitability (m : metrics) : Signal :=
  cut_2_0 (score [ 0.15 <? return_on_equity m;
                   0.20 <? net_margin m;
                   0.15 <? operating_margin m ]).

Definition growth (m : metrics) : Signal :=
  cut_2_0 (score [ 0.10 <? revenue_growth m;
                   0.10 <? earnings_growth m;
                   0.10 <? book_value_growth m ]).

Definition health (m : metrics) : Signal :=
  cut_2_0 (score [ debt_to_equity m <? 1.0;
                   1.5 <? current_ratio m;
                   1.0 <? quick_ratio m ]).

Definition cash_flow (m : metrics) : Signal :=
  cut_both (score [ 0.8 * earnings_per_share m <? free_cash_flow_per_share m;
                    0 <? free_cash_flow_per_share m ]).

Definition valuation (m : metrics) : Signal :=
  cut_2_0 (score [ (0 <? price_to_earnings m) && (price_to_earnings m <? 30);
                   price_to_book m <? 5;
                   price_to_sales m <? 10 ]).

Definition sub_signals (m : metrics) : list Signal :=
  [ profitability m; growth m; health m; cash_flow m; valuation m ].

Definition occurrences (s : Signal) (l : list Signal) : nat :=
  length (filter (fun x => x = s) l).

(** "bullish iff bullish_count>bearish_count AND bullish_count>=3;
    bearish iff bearish_count>bullish_count AND bearish_count>=3;
    otherwise neutral (confidence 0.5); confidence when non-neutral
    = min(1.0, |bullish_count - bearish_count| / 5)" *)
Definition aggregate (l : list Signal) : Signal * float :=
  let b := occurrences bullish l in
  let r := occurrences bearish l in
  let confidence :=
    Py.min 1.0 (Py.truediv (Z.abs (Z.of_nat b - Z.of_nat r)) 5) in
  if decide (r < b /\ 3 <= b)%nat then (bullish, confidence)
  else if decide (b < r /\ 3 <= r)%nat then (bearish, confidence)
  else (neutral, 0.5).

Definition fundamentals (m : metrics) : Signal * float :=
  aggregate (sub_signals m).

End Spec.

(** *** Observations and concrete inputs *)

(** What the spec calls the confidences of "the input signals tagged
    [tag]": the numbers paired with the string [tag], in the order of
    the list. *)
Definition confidences_tagged (tag : string) (signals : list (value * value))
  : list float :=
  omap (fun sc : value * value =>
          match sc.1, sc.2 with
          | VStr t, VNum c => if bool_decide (t = tag) then Some c else None
          | _, _ => None
          end) signals.

Definition is_num (v : value) : bool :=
  match v with VNum _ => true | _ => false end.

(** The four confidences read by the Risk Manager and the Portfolio
    Manager are numbers (absent ones default to 0.5). *)
Definition confidences_numeric (data : gmap string value) : Prop :=
  Forall (fun sc : value * value => is_num sc.2 = true) (Risk.signals data).

(** The order (action, quantity) a run of the Portfolio Manager
    publishes under ["final_decision"], if it publishes one. *)
Definition order_published (r : result (gmap string value)) : option (string * Z) :=
  match r with
  | Ok out =>
      match out !! "final_decision" with
      | Some (VDecision d) => Some (action d, quantity d)
      | _ => None
      end
  | Raise _ => None
  end.

(** The three reads of the Portfolio Manager that feed its numeric
    decision: the portfolio, the last close and the position size. *)
Definition reads (data : gmap string value) : result (portfolio * float * float) :=
  let* v := subscript data "portfolio" in
  let* current_price := Portfolio.last_close data in
  let* p := Portfolio.as_portfolio v in
  let* ps := as_num (get data "position_size" (VNum 0)) in
  Ok (p, current_price, ps).

Module Examples.



(** A metrics record with the four fields the Risk Manager reads. *)
Definition risk_inputs (b mc de cr : float) : metrics :=
  {| return_on_equity := 0; net_margin := 0; operating_margin := 0;
     revenue_growth := 0; earnings_growth := 0; book_value_growth := 0;
     debt_to_equity := de; current_ratio := cr; quick_ratio := 0;
     free_cash_flow_per_share := 0; earnings_per_share := 0;
     price_to_earnings := 0; price_to_book := 0; price_to_sales := 0;
     beta := b; market_cap := mc |}.

(** beta = 4, market_cap = 2e12, debt_to_equity = 0, current_ratio = 3. *)
Definition scenario_risk : metrics := risk_inputs 4 2e12 0 3.

(** The scenario metrics of the Fundamentals Analyzer. *)
Definition scenario_metrics (b mc : float) : metrics :=
  {| return_on_equity := 0.20; net_margin := 0.25; operating_margin := 0.18;
     revenue_growth := 0.15; earnings_growth := 0.12; book_value_growth := 0.05;
     debt_to_equity := 0.5; current_ratio := 2.0; quick_ratio := 1.2;
     free_cash_flow_per_share := 2.0; earnings_per_share := 2.0;
     price_to_earnings := 20; price_to_book := 3; price_to_sales := 5;
     beta := b; market_cap := mc |}.

(** Free cash flow 0.56 a share on earnings of 0.7 a share, where the
    product of line 65 is 0.5599999999999999; profitability and health
    are bullish, growth is bearish and valuation neutral. *)
Definition rounded_product : metrics :=
  {| return_on_equity := 0.20; net_margin := 0.25; operating_margin := 0.18;
     revenue_growth := 0; earnings_growth := 0; book_value_growth := 0;
     debt_to_equity := 0.5; current_ratio := 2.0; quick_ratio := 1.2;
     free_cash_flow_per_share := 0.56; earnings_per_share := 0.7;
     price_to_earnings := 0; price_to_book := 10; price_to_sales := 5;
     beta := 1; market_cap := 1e9 |}.


(** A context with a metrics record only. *)
Definition context (m : metrics) : gmap string value :=
  <["financial_metrics" := VMetrics [m]]> ∅.

Definition trade (sh v : float) (ty : string) : insider_trade :=
  {| shares := Some sh; value_ := Some v; transaction_type := ty |}.

(** Two purchases worth 1000000.0000000001 together. *)
Definition insider_buys : list insider_trade :=
  [ trade 100 813617.6 "buy"; trade 200 186382.40000000014 "buy" ].

(** A full context for the Portfolio Manager. *)
Definition pm_context (p : portfolio) (price position_size : float)
  : gmap string value :=
  <["portfolio" := VPortfolio p]>
    (<["prices" := VPrices [ {| close := 1 |}; {| close := price |} ]]>
       (<["position_size" := VNum position_size]>
          (<["risk_signal" := VStr "bullish"]> ∅))).

End Examples.

End F64.

(** ** Facts about the Python built-ins *)

(** Divisions by a literal become multiplications, which [lra] reads. *)
Ltac qdiv := unfold Qdiv in *; cbn [Qinv Qnum Qden] in *.

Section PyFacts.

Open Scope Q_scope.

Lemma min_le_l (a b : Q) : Py.min a b <= a.
Proof. unfold Py.min. destruct (Qlt_le_dec b a); lra. Qed.

Lemma min_le_r (a b : Q) : Py.min a b <= b.
Proof. unfold Py.min. destruct (Qlt_le_dec b a); lra. Qed.

Lemma min_glb (a b c : Q) : c <= a -> c <= b -> c <= Py.min a b.
Proof. unfold Py.min. destruct (Qlt_le_dec b a); lra. Qed.

Lemma max_ge_l (a b : Q) : a <= Py.max a b.
Proof. unfold Py.max. destruct (Qlt_le_dec a b); lra. Qed.

Lemma max_ge_r (a b : Q) : b <= Py.max a b.
Proof. unfold Py.max. destruct (Qlt_le_dec a b); lra. Qed.

Lemma max_lub (a b c : Q) : a <= c -> b <= c -> Py.max a b <= c.
Proof. unfold Py.max. destruct (Qlt_le_dec a b); lra. Qed.

Lemma gt_true (a b : Q) : Py.gt a b = true <-> b < a.
Proof. unfold Py.gt. destruct (Qlt_le_dec b a); split; (congruence || lra). Qed.

Lemma gt_false (a b : Q) : Py.gt a b = false <-> a <= b.
Proof. unfold Py.gt. destruct (Qlt_le_dec b a); split; (congruence || lra). Qed.

Lemma lt_true (a b : Q) : Py.lt a b = true <-> a < b.
Proof. unfold Py.lt. destruct (Qlt_le_dec a b); split; (congruence || lra). Qed.

Lemma lt_false (a b : Q) : Py.lt a b = false <-> b <= a.
Proof. unfold Py.lt. destruct (Qlt_le_dec a b); split; (congruence || lra). Qed.

End PyFacts.

(** ** Risk Manager: properties *)

Section RiskFacts.

Open Scope Q_scope.
Import Risk.

Lemma market_risk_range (m : metrics) : 0 <= market_risk m <= 1.
Proof.
  unfold market_risk. split.
  - apply min_glb; [lra | apply max_ge_l].
  - apply min_le_l.
Qed.

Lemma size_risk_nonneg (m : metrics) : 0 <= size_risk m.
Proof.
  unfold size_risk. pose proof (min_le_l 1 (market_cap m / 1000000000000)). lra.
Qed.

Lemma leverage_risk_le_1 (m : metrics) : leverage_risk m <= 1.
Proof. apply min_le_l. Qed.

Lemma liquidity_risk_nonneg (m : metrics) : 0 <= liquidity_risk m.
Proof. apply max_ge_l. Qed.

(** With a non-negative market cap, debt-to-equity and current ratio,
    all four sub-scores are in [0,1]. *)
Lemma sub_scores_range (m : metrics) :
  0 <= market_cap m -> 0 <= debt_to_equity m -> 0 <= current_ratio m ->
  (0 <= size_risk m <= 1) /\ (0 <= leverage_risk m <= 1)
  /\ (0 <= liquidity_risk m <= 1).
Proof.
  intros Hc Hd Hr. unfold size_risk, leverage_risk, liquidity_risk. qdiv.
  assert (0 <= market_cap m * (1 # 1000000000000)) by lra.
  repeat split.
  - pose proof (min_le_l 1 (market_cap m * (1 # 1000000000000))). lra.
  - assert (0 <= Py.min 1 (market_cap m * (1 # 1000000000000)))
      by (apply min_glb; lra).
    lra.
  - apply min_glb; lra.
  - apply min_le_l.
  - apply max_ge_l.
  - apply max_lub; lra.
Qed.

Lemma weight_sum (tag : string) (l : list (value * value)) (acc w : Q) :
  weight tag l acc = Ok w -> w == acc + sum_tagged tag l.
Proof.
  revert acc. induction l as [|[sig conf] rest IH]; intros acc H; simpl in *.
  - injection H as <-. lra.
  - destruct (eq_str sig tag).
    + destruct conf; simpl in H; try discriminate.
      apply IH in H. lra.
    + apply IH in H. lra.
Qed.

Lemma weight_total (tag : string) (l : list (value * value)) (acc : Q) :
  Forall (fun sc : value * value => is_num sc.2 = true) l ->
  exists w, weight tag l acc = Ok w.
Proof.
  intros H. revert acc. induction H as [|[sig conf] rest Hn _ IH]; intros acc; simpl.
  - eauto.
  - destruct (eq_str sig tag); [|apply IH].
    destruct conf; simpl in Hn; try discriminate. simpl. apply IH.
Qed.

Lemma decide_position_cap (base bw brw : Q) :
  (decide_position base bw brw).2 <= 8#10.
Proof.
  unfold decide_position.
  destruct (Py.gt bw brw); [|destruct (Py.gt brw bw)]; simpl; apply min_le_l.
Qed.

(** The agent as one [insert] chain, once its reads succeed. *)
Lemma risk_management_agent_eq (data : gmap string value) (m : metrics) (bw brw : Q) :
  first_metrics data = Ok m ->
  weight "bullish" (signals data) 0 = Ok bw ->
  weight "bearish" (signals data) 0 = Ok brw ->
  risk_management_agent data =
    Ok (<["position_size" := VNum (decide_position (base_position m) bw brw).2]>
          (<["risk_signal" := VStr (decide_position (base_position m) bw brw).1]> data)).
Proof.
  intros Hm Hb Hr. unfold risk_management_agent.
  rewrite Hm, Hb, Hr. simpl.
  destruct (decide_position (base_position m) bw brw). reflexivity.
Qed.

Lemma risk_management_agent_inv (data out : gmap string value) :
  risk_management_agent data = Ok out ->
  exists m bw brw,
    first_metrics data = Ok m
    /\ weight "bullish" (signals data) 0 = Ok bw
    /\ weight "bearish" (signals data) 0 = Ok brw.
Proof.
  unfold risk_management_agent. intros H.
  destruct (first_metrics data) as [m|]; [|discriminate].
  destruct (weight "bullish" (signals data) 0) as [bw|]; [|discriminate].
  destruct (weight "bearish" (signals data) 0) as [brw|]; [|discriminate].
  eauto 6.
Qed.

End RiskFacts.

Section RiskClaims.

Open Scope Q_scope.
Import Risk.

(** C1.  Whatever the decision context holds (any metrics, any upstream
    signals and confidences), a position size published by the Risk
    Manager is at most 0.8; and the Risk Manager does publish one
    whenever the context has a metrics record and numeric
    confidences. *)
Theorem risk_position_size_capped (data : gmap string value) :
  (forall out, risk_management_agent data = Ok out ->
     exists ps, out !! "position_size" = Some (VNum ps) /\ ps <= 8#10)
  /\ (forall m, first_metrics data = Ok m -> confidences_numeric data ->
        exists out, risk_management_agent data = Ok out).
Proof.
  split.
  - intros out H.
    destruct (risk_management_agent_inv _ _ H) as (m & bw & brw & Hm & Hb & Hr).
    rewrite (risk_management_agent_eq _ _ _ _ Hm Hb Hr) in H.
    injection H as <-. eexists. split.
    + apply lookup_insert_eq.
    + apply decide_position_cap.
  - intros m Hm Hn.
    destruct (weight_total "bullish" _ 0 Hn) as [bw Hb].
    destruct (weight_total "bearish" _ 0 Hn) as [brw Hr].
    rewrite (risk_management_agent_eq _ _ _ _ Hm Hb Hr). eauto.
Qed.

Lemma risk_position_size_capped_witness :
  exists out ps,
    risk_management_agent Examples.adversarial = Ok out
    /\ out !! "position_size" = Some (VNum ps) /\ ps <= 8#10.
Proof.
  destruct (risk_position_size_capped Examples.adversarial) as [Hcap Htot].
  destruct (Htot (Examples.risk_inputs 100 1000 50 1)) as [out Hout].
  - reflexivity.
  - repeat constructor.
  - destruct (Hcap out Hout) as (ps & Hps & Hle). exists out, ps. auto.
Defined.

(** C6 (the code departs from it).  The size, leverage and liquidity
    sub-scores are clamped on one side only: a negative debt-to-equity
    gives a negative leverage risk, a negative market cap a size risk
    above 1, and a negative current ratio a liquidity risk above 1. *)
Theorem risk_sub_scores_leave_unit_interval :
  leverage_risk (Examples.risk_inputs 1 500000000000 (-1) 1) == -(1#2)
  /\ size_risk (Examples.risk_inputs 1 (-1000000000000) 1 1) == 2
  /\ liquidity_risk (Examples.risk_inputs 1 500000000000 1 (-2)) == 2.
Proof. split_and!; vm_compute; reflexivity. Qed.

(** C7 (the code departs from it).  With market_cap = -1e13 the size
    risk is 11, the total risk 2.5 and the base position -1.5; one
    bullish signal of confidence 1 then publishes the position size
    -1.5, below 0. *)
Theorem risk_position_size_negative :
  exists out ps,
    risk_management_agent Examples.negative_cap = Ok out
    /\ out !! "position_size" = Some (VNum ps)
    /\ ps == -(3#2) /\ ps < 0.
Proof.
  destruct (risk_management_agent Examples.negative_cap) as [out|e] eqn:E.
  - exists out.
    rewrite (risk_management_agent_eq Examples.negative_cap
               (Examples.risk_inputs 1 (-10000000000000) 1 2) (0 + 1) 0
               eq_refl eq_refl eq_refl) in E.
    injection E as <-. eexists. split; [reflexivity|]. split.
    + apply lookup_insert_eq.
    + split; vm_compute; reflexivity.
  - vm_compute in E. discriminate.
Qed.

(** When the four sub-scores are in [0,1] and the confidences are not
    negative, the published size is in [0, 0.8]. *)
Lemma decide_position_nonneg (base bw brw : Q) :
  0 <= base -> 0 <= bw -> 0 <= brw ->
  0 <= (decide_position base bw brw).2.
Proof.
  intros Hb Hw Hr. unfold decide_position.
  destruct (Py.gt bw brw); [|destruct (Py.gt brw bw)]; simpl;
    apply min_glb; try lra.
  - assert (0 <= Py.min 1 bw) by (apply min_glb; lra). nra.
  - assert (0 <= Py.min 1 brw) by (apply min_glb; lra). nra.
Qed.

End RiskClaims.

(** ** Fundamentals Analyzer: properties *)

Section FundamentalsFacts.

Import Fundamentals.
Open Scope Q_scope.

Lemma gt_decide (a b : Q) : Py.gt a b = bool_decide (b < a).
Proof.
  destruct (Py.gt a b) eqn:E; symmetry.
  - apply bool_decide_eq_true, gt_true, E.
  - apply bool_decide_eq_false. apply gt_false in E. lra.
Qed.

Lemma lt_decide (a b : Q) : Py.lt a b = bool_decide (a < b).
Proof.
  destruct (Py.lt a b) eqn:E; symmetry.
  - apply bool_decide_eq_true, lt_true, E.
  - apply bool_decide_eq_false. apply lt_false in E. lra.
Qed.

Lemma profitability_refines (m : metrics) :
  cut_ge2 (profitability_score m) = Spec.name (Spec.profitability m).
Proof.
  unfold profitability_score, Spec.profitability. rewrite !gt_decide.
  destruct (bool_decide (15#100 < return_on_equity m)),
           (bool_decide (20#100 < net_margin m)),
           (bool_decide (15#100 < operating_margin m)); reflexivity.
Qed.

Lemma growth_refines (m : metrics) :
  cut_ge2 (growth_score m) = Spec.name (Spec.growth m).
Proof.
  unfold growth_score, Spec.growth. rewrite !gt_decide.
  destruct (bool_decide (10#100 < revenue_growth m)),
           (bool_decide (10#100 < earnings_growth m)),
           (bool_decide (10#100 < book_value_growth m)); reflexivity.
Qed.

Lemma health_refines (m : metrics) :
  cut_ge2 (health_score m) = Spec.name (Spec.health m).
Proof.
  unfold health_score, Spec.health. rewrite !gt_decide, !lt_decide.
  destruct (bool_decide (debt_to_equity m < 1)),
           (bool_decide (15#10 < current_ratio m)),
           (bool_decide (1 < quick_ratio m)); reflexivity.
Qed.

Lemma cash_flow_refines (m : metrics) :
  cut_eq2 (cash_flow_score m) = Spec.name (Spec.cash_flow m).
Proof.
  unfold cash_flow_score, Spec.cash_flow. rewrite !gt_decide.
  assert (bool_decide (earnings_per_share m * (8#10) < free_cash_flow_per_share m)
          = bool_decide ((8#10) * earnings_per_share m < free_cash_flow_per_share m))
    as -> by (apply bool_decide_ext; split; intros; lra).
  destruct (bool_decide ((8#10) * earnings_per_share m < free_cash_flow_per_share m)),
           (bool_decide (0 < free_cash_flow_per_share m)); reflexivity.
Qed.

Lemma valuation_refines (m : metrics) :
  cut_ge2 (valuation_score m) = Spec.name (Spec.valuation m).
Proof.
  unfold valuation_score, Spec.valuation. rewrite !gt_decide, !lt_decide.
  destruct (bool_decide (0 < price_to_earnings m)),
           (bool_decide (price_to_earnings m < 30)),
           (bool_decide (price_to_book m < 5)),
           (bool_decide (price_to_sales m < 10)); reflexivity.
Qed.

Lemma sub_signals_refine (m : metrics) :
  sub_signals m = map Spec.name (Spec.sub_signals m).
Proof.
  unfold sub_signals, Spec.sub_signals. simpl.
  rewrite profitability_refines, growth_refines, health_refines,
    cash_flow_refines, valuation_refines. reflexivity.
Qed.

End FundamentalsFacts.



(** ** Portfolio Manager: properties *)

Section PortfolioFacts.

Import Portfolio.
Open Scope Q_scope.


Lemma int_nonneg (x : Q) : 0 <= x -> (0 <= Py.int x)%Z.
Proof.
  destruct x as [n d]. unfold Qle, Py.int. simpl. intros H.
  apply Z.quot_pos; lia.
Qed.

Lemma reads_agree (d1 d2 : gmap string value) :
  d1 !! "portfolio" = d2 !! "portfolio" ->
  d1 !! "prices" = d2 !! "prices" ->
  d1 !! "position_size" = d2 !! "position_size" ->
  reads d1 = reads d2.
Proof.
  intros H1 H2 H3.
  unfold reads, portfolio_of, last_close, subscript, get.
  rewrite H1, H2, H3. reflexivity.
Qed.

Lemma make_decision_order (data : gmap string value) (dec : decision) :
  make_decision data = Ok dec ->
  exists p price ps,
    reads data = Ok (p, price, ps)
    /\ (action dec, quantity dec) = decide p price ps.
Proof.
  unfold make_decision, reads. intros H.
  destruct (portfolio_of data) as [p|]; [|discriminate].
  simpl in *. destruct (last_close data) as [price|]; [|discriminate].
  simpl in *.
  destruct (as_num (get data "position_size" (VNum 0))) as [ps|]; [|discriminate].
  simpl in *. exists p, price, ps. split; [reflexivity|].
  destruct (decide p price ps) as [a q].
  destruct (as_num (get data "fundamentals_confidence" (VNum (1 # 2)))); [|discriminate].
  destruct (as_num (get data "technical_confidence" (VNum (1 # 2)))); [|discriminate].
  destruct (as_num (get data "sentiment_confidence" (VNum (1 # 2)))); [|discriminate].
  destruct (as_num (get data "valuation_confidence" (VNum (1 # 2)))); [|discriminate].
  simpl in H. injection H as <-. reflexivity.
Qed.

Lemma is_num_as_num (v : value) : is_num v = true -> exists q, as_num v = Ok q.
Proof. destruct v; simpl; try discriminate. eauto. Qed.

Lemma make_decision_total (data : gmap string value) (p : portfolio) (price ps : Q) :
  reads data = Ok (p, price, ps) ->
  confidences_numeric data ->
  exists dec, make_decision data = Ok dec.
Proof.
  unfold make_decision, reads, confidences_numeric, Risk.signals.
  intros H Hn.
  destruct (portfolio_of data) as [p'|]; [|discriminate].
  simpl in *. destruct (last_close data) as [price'|]; [|discriminate].
  simpl in *.
  destruct (as_num (get data "position_size" (VNum 0))) as [ps'|]; [|discriminate].
  simpl in *. destruct (decide p' price' ps') as [a q].
  inversion Hn as [|? ? N1 Hn1]; subst. inversion Hn1 as [|? ? N2 Hn2]; subst.
  inversion Hn2 as [|? ? N3 Hn3]; subst. inversion Hn3 as [|? ? N4 _]; subst.
  simpl in N1, N2, N3, N4.
  destruct (is_num_as_num _ N1) as [? ->]. destruct (is_num_as_num _ N2) as [? ->].
  destruct (is_num_as_num _ N3) as [? ->]. destruct (is_num_as_num _ N4) as [? ->].
  simpl. eauto.
Qed.

Lemma make_decision_raise (data : gmap string value) (e : error) :
  reads data = Raise e -> make_decision data = Raise e.
Proof.
  unfold make_decision, reads. intros H.
  destruct (portfolio_of data) as [p'|]; simpl in *; [|congruence].
  destruct (last_close data) as [price'|]; simpl in *; [|congruence].
  destruct (as_num (get data "position_size" (VNum 0))) as [ps'|];
    simpl in *; [discriminate|congruence].
Qed.

Lemma order_published_agent (data : gmap string value) :
  order_published (portfolio_management_agent data)
  = match make_decision data with
    | Ok dec => Some (action dec, quantity dec)
    | Raise _ => None
    end.
Proof.
  unfold portfolio_management_agent.
  destruct (make_decision data) as [dec|]; simpl; [|reflexivity].
  rewrite lookup_insert_eq. reflexivity.
Qed.

End PortfolioFacts.

Section PortfolioClaims.

Import Portfolio.
Open Scope Q_scope.

Lemma target_value_nonneg (p : portfolio) (price ps : Q) :
  (0 <= stock p)%Z -> 0 <= cash p -> 0 <= ps -> 0 < price ->
  0 <= target_position_value p price ps / price.
Proof.
  intros Hs Hc Hp Hpr.
  unfold target_position_value, total_portfolio_value.
  assert (0 <= inject_Z (stock p)) by (unfold Qle; simpl; lia).
  assert (0 <= inject_Z (stock p) * price)
    by (apply Qmult_le_0_compat; lra).
  apply Qle_shift_div_l; [exact Hpr|].
  rewrite Qmult_0_l. apply Qmult_le_0_compat; lra.
Qed.

Lemma target_shares_nonneg (p : portfolio) (price ps : Q) :
  (0 <= stock p)%Z -> 0 <= cash p -> 0 <= ps ->
  (0 <= target_shares p price ps)%Z.
Proof.
  intros Hs Hc Hp. unfold target_shares.
  destruct (Py.gt price 0) eqn:E; [|lia].
  apply gt_true in E. apply int_nonneg, target_value_nonneg; assumption.
Qed.

(** C8.  Two contexts with the same portfolio, prices and position size
    give the same action and quantity whenever the Portfolio Manager
    builds a decision for both; and when their upstream confidences
    are numbers it publishes the same order for both, or none for
    either. *)
Theorem portfolio_order_ignores_signals (d1 d2 : gmap string value) :
  d1 !! "portfolio" = d2 !! "portfolio" ->
  d1 !! "prices" = d2 !! "prices" ->
  d1 !! "position_size" = d2 !! "position_size" ->
  (forall dec1 dec2,
      make_decision d1 = Ok dec1 -> make_decision d2 = Ok dec2 ->
      action dec1 = action dec2 /\ quantity dec1 = quantity dec2)
  /\ (confidences_numeric d1 -> confidences_numeric d2 ->
      order_published (portfolio_management_agent d1)
      = order_published (portfolio_management_agent d2)).
Proof.
  intros H1 H2 H3. pose proof (reads_agree _ _ H1 H2 H3) as Hr. split.
  - intros dec1 dec2 E1 E2.
    destruct (make_decision_order _ _ E1) as (p & price & ps & R1 & O1).
    destruct (make_decision_order _ _ E2) as (p' & price' & ps' & R2 & O2).
    rewrite Hr, R2 in R1. injection R1 as <- <- <-.
    rewrite <- O2 in O1. injection O1 as -> ->. auto.
  - intros N1 N2. rewrite !order_published_agent.
    destruct (reads d1) as [[[p price] ps]|e] eqn:R1.
    + symmetry in Hr.
      destruct (make_decision_total _ _ _ _ R1 N1) as [dec1 E1].
      destruct (make_decision_total _ _ _ _ Hr N2) as [dec2 E2].
      rewrite E1, E2.
      destruct (make_decision_order _ _ E1) as (? & ? & ? & R1' & O1).
      destruct (make_decision_order _ _ E2) as (? & ? & ? & R2' & O2).
      rewrite R1 in R1'. rewrite Hr in R2'.
      injection R1' as <- <- <-. injection R2' as <- <- <-.
      rewrite O1, O2. reflexivity.
    + symmetry in Hr.
      rewrite (make_decision_raise _ _ R1), (make_decision_raise _ _ Hr).
      reflexivity.
Qed.

Lemma portfolio_order_ignores_signals_witness :
  let d1 := Examples.pm_context {| cash := 1000; stock := 5 |} 10 (1#2) in
  let d2 := <["fundamentals_signal" := VStr "bearish"]>
              (<["fundamentals_confidence" := VNum 1]>
                 (<["risk_signal" := VStr "bearish"]> d1)) in
  order_published (portfolio_management_agent d1)
  = order_published (portfolio_management_agent d2).
Proof.
  intros d1 d2.
  apply (portfolio_order_ignores_signals d1 d2); try reflexivity;
    repeat constructor.
Defined.

(** C10, falsified as stated: with cash -1000, one share held, price
    10 and position size 0.5 the total value is -990, the target -49
    shares, and the order sells 50 shares. *)
Lemma sell_exceeds_holdings_with_debt :
  let p := {| cash := -1000; stock := 1 |} in
  (0 <= stock p)%Z /\ 0 <= 1#2
  /\ target_shares p 10 (1#2) = (-49)%Z
  /\ decide p 10 (1#2) = ("sell", 50%Z)
  /\ ~ ((decide p 10 (1#2)).2 <= stock p)%Z.
Proof. split_and!; vm_compute; (reflexivity || discriminate || auto). Qed.

(** C10, amended.  For a portfolio with stock >= 0 and cash >= 0, any
    price and a position size >= 0, the target shares are not negative,
    and whenever the action is sell the quantity is held - target, at
    most the held shares; without a positive price it is exactly the
    held shares. *)
Theorem sell_within_holdings (p : portfolio) (price ps : Q) :
  (0 <= stock p)%Z -> 0 <= cash p -> 0 <= ps ->
  (decide p price ps).1 = "sell" ->
  (0 <= target_shares p price ps)%Z
  /\ (decide p price ps).2 = (stock p - target_shares p price ps)%Z
  /\ ((decide p price ps).2 <= stock p)%Z
  /\ (~ 0 < price -> (decide p price ps).2 = stock p).
Proof.
  intros Hs Hc Hp Hsell.
  pose proof (target_shares_nonneg p price ps Hs Hc Hp) as Ht.
  unfold decide, order in *.
  destruct (stock p <? target_shares p price ps)%Z; [discriminate|].
  destruct (target_shares p price ps <? stock p)%Z; [|discriminate].
  simpl. split_and!; try lia.
  intros Hn. unfold target_shares.
  assert (Py.gt price 0 = false) as -> by (apply gt_false; lra). lia.
Qed.

Lemma sell_within_holdings_witness :
  let p := {| cash := 1000; stock := 100 |} in
  (decide p 10 (1#10)).1 = "sell" /\ ((decide p 10 (1#10)).2 <= stock p)%Z.
Proof.
  intros p. split; [reflexivity|].
  destruct (sell_within_holdings p 10 (1#10)) as (_ & _ & H & _).
  - vm_compute. discriminate.
  - vm_compute. discriminate.
  - vm_compute. discriminate.
  - reflexivity.
  - exact H.
Defined.

End PortfolioClaims.

(** ** Frame of the stages *)

Section FrameClaims.

Lemma frame_insert1 (data : gmap string value) (k : string) (v : value) :
  frame data (<[k := v]> data) [k].
Proof.
  split.
  - intros j Hj. apply not_elem_of_cons in Hj as [Hne _].
    apply lookup_insert_ne. congruence.
  - rewrite dom_insert_L. simpl.
    rewrite (right_id_L ∅ (∪)). apply (comm_L (∪)).
Qed.

Lemma frame_insert2 (data : gmap string value) (k1 k2 : string) (v1 v2 : value) :
  frame data (<[k2 := v2]> (<[k1 := v1]> data)) [k1; k2].
Proof.
  split.
  - intros j Hj. apply not_elem_of_cons in Hj as [Hne1 Hj].
    apply not_elem_of_cons in Hj as [Hne2 _].
    rewrite !lookup_insert_ne by congruence. reflexivity.
  - rewrite !dom_insert_L. simpl.
    rewrite (right_id_L ∅ (∪)), (comm_L (∪) (dom data)).
    rewrite (assoc_L (∪) {[k2]}). f_equal. apply (comm_L (∪)).
Qed.

Lemma fundamentals_agent_inv (data out : gmap string value) :
  Fundamentals.fundamentals_agent data = Ok out ->
  exists s c, out = <["fundamentals_confidence" := VNum c]>
                      (<["fundamentals_signal" := VStr s]> data).
Proof.
  unfold Fundamentals.fundamentals_agent. intros H.
  destruct (first_metrics data) as [m|]; [|discriminate]. simpl in H.
  destruct (Fundamentals.analyse m) as [s c]. injection H as <-. eauto.
Qed.

Lemma sentiment_agent_inv (data out : gmap string value) :
  Sentiment.sentiment_agent data = Ok out ->
  exists s c, out = <["sentiment_confidence" := VNum c]>
                      (<["sentiment_signal" := VStr s]> data).
Proof.
  unfold Sentiment.sentiment_agent. intros H.
  destruct (Sentiment.trades_of data) as [ts|]; [|discriminate]. simpl in H.
  destruct (Sentiment.analyse ts) as [[im s] c]. injection H as <-. eauto.
Qed.

Lemma portfolio_management_agent_inv (data out : gmap string value) :
  Portfolio.portfolio_management_agent data = Ok out ->
  exists d, out = <["final_decision" := VDecision d]> data.
Proof.
  unfold Portfolio.portfolio_management_agent. intros H.
  destruct (Portfolio.make_decision data) as [d|]; [|discriminate].
  injection H as <-. eauto.
Qed.

(** C9.  Whenever a stage returns, its output mapping agrees with the
    input mapping on every key that is not one of the stage's published
    keys, and its keys are those of the input together with the
    published ones: the signal and confidence keys of Fundamentals and
    of Sentiment, [risk_signal] and [position_size] for the Risk
    Manager, [final_decision] for the Portfolio Manager. *)
Theorem stages_frame_preserving (data out : gmap string value) :
  (Fundamentals.fundamentals_agent data = Ok out ->
     frame data out ["fundamentals_signal"; "fundamentals_confidence"])
  /\ (Sentiment.sentiment_agent data = Ok out ->
      frame data out ["sentiment_signal"; "sentiment_confidence"])
  /\ (Risk.risk_management_agent data = Ok out ->
      frame data out ["risk_signal"; "position_size"])
  /\ (Portfolio.portfolio_management_agent data = Ok out ->
      frame data out ["final_decision"]).
Proof.
  split_and!; intros H.
  - destruct (fundamentals_agent_inv _ _ H) as (s & c & ->).
    apply frame_insert2.
  - destruct (sentiment_agent_inv _ _ H) as (s & c & ->).
    apply frame_insert2.
  - destruct (risk_management_agent_inv _ _ H) as (m & bw & brw & Hm & Hb & Hr).
    rewrite (risk_management_agent_eq _ _ _ _ Hm Hb Hr) in H.
    injection H as <-. apply frame_insert2.
  - destruct (portfolio_management_agent_inv _ _ H) as (d & ->).
    apply frame_insert1.
Qed.

Lemma stages_frame_preserving_witness :
  let data := Examples.context (Examples.scenario_metrics 1 1000) in
  exists out,
    Fundamentals.fundamentals_agent data = Ok out
    /\ out !! "financial_metrics" = data !! "financial_metrics"
    /\ dom out
       = dom data ∪ list_to_set ["fundamentals_signal"; "fundamentals_confidence"].
Proof.
  intros data.
  destruct (Fundamentals.fundamentals_agent data) as [out|e] eqn:E.
  - exists out. split; [reflexivity|].
    destruct (stages_frame_preserving data out) as ([Hk Hd] & _); [exact E|].
    split; [|exact Hd].
    apply Hk. intros Hin.
    apply elem_of_cons in Hin as [Hin|Hin]; [discriminate|].
    apply elem_of_cons in Hin as [Hin|Hin]; [discriminate|].
    inversion Hin.
  - vm_compute in E. discriminate.
Defined.

End FrameClaims.

(** ** Risk Manager: further properties *)

Section RiskExtras.

Import Risk.
Open Scope Q_scope.

Lemma min_mono (a b c : Q) : b <= c -> Py.min a b <= Py.min a c.
Proof.
  unfold Py.min. intros H.
  destruct (Qlt_le_dec b a), (Qlt_le_dec c a); lra.
Qed.

Lemma max_mono (a b c : Q) : b <= c -> Py.max a b <= Py.max a c.
Proof.
  unfold Py.max. intros H.
  destruct (Qlt_le_dec a b), (Qlt_le_dec a c); lra.
Qed.

Lemma size_risk_le_1 (m : metrics) : 0 <= market_cap m -> size_risk m <= 1.
Proof.
  intros H. unfold size_risk. qdiv.
  assert (0 <= Py.min 1 (market_cap m * (1 # 1000000000000)))
    by (apply min_glb; lra).
  lra.
Qed.

Lemma liquidity_risk_le_1 (m : metrics) :
  0 <= current_ratio m -> liquidity_risk m <= 1.
Proof.
  intros H. unfold liquidity_risk. qdiv. apply max_lub; lra.
Qed.

Lemma base_position_nonneg (m : metrics) :
  0 <= market_cap m -> 0 <= current_ratio m -> 0 <= base_position m.
Proof.
  intros Hc Hr. unfold base_position, total_risk_score.
  pose proof (market_risk_range m) as [_ H1].
  pose proof (size_risk_le_1 m Hc) as H2.
  pose proof (leverage_risk_le_1 m) as H3.
  pose proof (liquidity_risk_le_1 m Hr) as H4.
  lra.
Qed.

Lemma nonneg_num_inv (v : value) :
  nonneg_num v = true -> exists q, v = VNum q /\ 0 <= q.
Proof.
  destruct v; simpl; try discriminate.
  intros H. apply Qle_bool_iff in H. eauto.
Qed.

Lemma sum_tagged_nonneg (tag : string) (l : list (value * value)) :
  Forall (fun sc : value * value => nonneg_num sc.2 = true) l ->
  0 <= sum_tagged tag l.
Proof.
  induction 1 as [|[sig conf] rest Hn _ IH]; simpl in *; [lra|].
  destruct (nonneg_num_inv _ Hn) as (q & -> & Hq).
  destruct (eq_str sig tag); lra.
Qed.

Lemma nonneg_numeric (data : gmap string value) :
  confidences_nonneg data -> confidences_numeric data.
Proof.
  unfold confidences_nonneg, confidences_numeric.
  intros Hn. eapply Forall_impl; [exact Hn|]. intros [sig conf] H.
  destruct (nonneg_num_inv _ H) as (q & E & _). simpl in E. subst. reflexivity.
Qed.

(** X1.  With a market cap and a current ratio that are not negative and
    confidences that are non-negative numbers, the Risk Manager returns
    and the position size it publishes lies in [0, 0.8], whatever the
    beta and the debt-to-equity are. *)
Theorem risk_position_size_in_range (data : gmap string value) (m : metrics) :
  first_metrics data = Ok m ->
  0 <= market_cap m -> 0 <= current_ratio m ->
  confidences_nonneg data ->
  exists out ps,
    risk_management_agent data = Ok out
    /\ out !! "position_size" = Some (VNum ps)
    /\ 0 <= ps <= 8#10.
Proof.
  intros Hm Hc Hr Hn.
  pose proof (nonneg_numeric _ Hn) as Hnum.
  destruct (weight_total "bullish" _ 0 Hnum) as [bw Hb].
  destruct (weight_total "bearish" _ 0 Hnum) as [brw Hbr].
  pose proof (weight_sum _ _ _ _ Hb) as Sb.
  pose proof (weight_sum _ _ _ _ Hbr) as Sr.
  pose proof (sum_tagged_nonneg "bullish" _ Hn).
  pose proof (sum_tagged_nonneg "bearish" _ Hn).
  eexists. eexists. split.
  - apply (risk_management_agent_eq _ _ _ _ Hm Hb Hbr).
  - split; [apply lookup_insert_eq|]. split.
    + apply decide_position_nonneg; [apply base_position_nonneg; assumption|lra|lra].
    + apply decide_position_cap.
Qed.

Lemma risk_position_size_in_range_witness :
  exists out ps,
    risk_management_agent Examples.adversarial = Ok out
    /\ out !! "position_size" = Some (VNum ps)
    /\ 0 <= ps <= 8#10.
Proof.
  apply (risk_position_size_in_range Examples.adversarial
           (Examples.risk_inputs 100 1000 50 1)).
  - reflexivity.
  - vm_compute. discriminate.
  - vm_compute. discriminate.
  - repeat constructor.
Defined.

(** X2.  The signal the Risk Manager publishes is one of the three names,
    and a neutral signal always comes with position size 0. *)
Theorem risk_neutral_means_no_position (data out : gmap string value) :
  risk_management_agent data = Ok out ->
  exists s ps,
    out !! "risk_signal" = Some (VStr s)
    /\ out !! "position_size" = Some (VNum ps)
    /\ (s = "bullish" \/ s = "bearish" \/ s = "neutral")
    /\ (s = "neutral" -> ps = 0).
Proof.
  intros H.
  destruct (risk_management_agent_inv _ _ H) as (m & bw & brw & Hm & Hb & Hr).
  rewrite (risk_management_agent_eq _ _ _ _ Hm Hb Hr) in H.
  injection H as <-. eexists. eexists. split.
  - rewrite lookup_insert_ne by discriminate. apply lookup_insert_eq.
  - split; [apply lookup_insert_eq|].
    unfold decide_position.
    destruct (Py.gt bw brw); [|destruct (Py.gt brw bw)]; simpl;
      (split; [tauto|]); (discriminate || reflexivity).
Qed.

Lemma risk_neutral_means_no_position_witness :
  let data : gmap string value :=
    <["financial_metrics" := VMetrics [Examples.scenario_risk]]> ∅ in
  let out := <["position_size" := VNum 0]>
               (<["risk_signal" := VStr "neutral"]> data) in
  risk_management_agent data = Ok out
  /\ exists s ps,
      out !! "risk_signal" = Some (VStr s)
      /\ out !! "position_size" = Some (VNum ps)
      /\ (s = "neutral" -> ps = 0).
Proof.
  intros data out.
  assert (E : risk_management_agent data = Ok out)
    by reflexivity.
  split; [exact E|].
  destruct (risk_neutral_means_no_position _ _ E) as (s & ps & H1 & H2 & _ & H3).
  exists s, ps. auto.
Defined.

(** X3.  When none of the four upstream signal keys is in the context,
    the Risk Manager publishes neutral with position size 0, and it does
    so without reading the confidences, which may then hold anything. *)
Theorem risk_without_upstream_signals (data : gmap string value) (m : metrics) :
  first_metrics data = Ok m ->
  data !! "fundamentals_signal" = None ->
  data !! "technical_signal" = None ->
  data !! "sentiment_signal" = None ->
  data !! "valuation_signal" = None ->
  risk_management_agent data
  = Ok (<["position_size" := VNum 0]> (<["risk_signal" := VStr "neutral"]> data)).
Proof.
  intros Hm H1 H2 H3 H4.
  apply (risk_management_agent_eq data m 0 0 Hm);
    unfold signals, get; rewrite H1, H2, H3, H4; reflexivity.
Qed.

Lemma risk_without_upstream_signals_witness :
  let data : gmap string value :=
    <["financial_metrics" := VMetrics [Examples.scenario_risk]]>
      (<["technical_confidence" := VStr "high"]> ∅) in
  risk_management_agent data
  = Ok (<["position_size" := VNum 0]> (<["risk_signal" := VStr "neutral"]> data)).
Proof.
  intros data.
  apply (risk_without_upstream_signals data Examples.scenario_risk); reflexivity.
Defined.

(** X4.  The base position never grows when beta or debt-to-equity grow,
    nor when the market cap or the current ratio shrink. *)
Theorem base_position_monotone (m1 m2 : metrics) :
  beta m1 <= beta m2 ->
  market_cap m2 <= market_cap m1 ->
  debt_to_equity m1 <= debt_to_equity m2 ->
  current_ratio m2 <= current_ratio m1 ->
  base_position m2 <= base_position m1.
Proof.
  intros Hb Hc Hd Hr.
  assert (market_risk m1 <= market_risk m2).
  { unfold market_risk. apply min_mono, max_mono. qdiv. lra. }
  assert (size_risk m1 <= size_risk m2).
  { unfold size_risk.
    assert (Py.min 1 (market_cap m2 / 1000000000000)
            <= Py.min 1 (market_cap m1 / 1000000000000))
      by (apply min_mono; qdiv; lra).
    lra. }
  assert (leverage_risk m1 <= leverage_risk m2).
  { unfold leverage_risk. apply min_mono. qdiv. lra. }
  assert (liquidity_risk m1 <= liquidity_risk m2).
  { unfold liquidity_risk. apply max_mono. qdiv. lra. }
  unfold base_position, total_risk_score. lra.
Qed.

Lemma base_position_monotone_witness :
  base_position (Examples.risk_inputs 2 1000 1 1)
  <= base_position (Examples.risk_inputs 1 2000 (1#2) 2).
Proof.
  apply base_position_monotone; vm_compute; discriminate.
Defined.

(** X5.  Exchanging the bullish and the bearish weight exchanges the
    bullish and bearish signals and leaves the position size as it is:
    the size depends on how strong the heavier side is, not on which
    side it is. *)
Theorem decide_position_symmetric (base bw brw : Q) :
  (decide_position base bw brw).2 = (decide_position base brw bw).2
  /\ ((decide_position base bw brw).1 = "bullish"
      <-> (decide_position base brw bw).1 = "bearish")
  /\ ((decide_position base bw brw).1 = "neutral"
      <-> (decide_position base brw bw).1 = "neutral").
Proof.
  unfold decide_position.
  destruct (Py.gt bw brw) eqn:E1, (Py.gt brw bw) eqn:E2; simpl.
  - apply gt_true in E1, E2. lra.
  - repeat split; intros; (reflexivity || discriminate).
  - repeat split; intros; (reflexivity || discriminate).
  - repeat split; intros; (reflexivity || discriminate).
Qed.

End RiskExtras.

(** ** Fundamentals and Sentiment Analyzers: further properties *)

Section AnalyzerExtras.

Open Scope Q_scope.

Lemma analyse_range (m : metrics) :
  ((Fundamentals.analyse m).1 = "bullish"
   \/ (Fundamentals.analyse m).1 = "bearish"
   \/ (Fundamentals.analyse m).1 = "neutral")
  /\ 1#5 <= (Fundamentals.analyse m).2 <= 1.
Proof.
  unfold Fundamentals.analyse. rewrite sub_signals_refine.
  unfold Spec.sub_signals.
  destruct (Spec.profitability m), (Spec.growth m), (Spec.health m),
           (Spec.cash_flow m), (Spec.valuation m);
    vm_compute;
    (split;
     [first [left; reflexivity | right; left; reflexivity
            | right; right; reflexivity]
     | split; discriminate]).
Qed.

(** X6.  Whenever the Fundamentals Analyzer returns, the signal it
    publishes is one of the three names and the confidence is a number
    between 0.2 and 1. *)
Theorem fundamentals_publishes_signal_in_range (data out : gmap string value) :
  Fundamentals.fundamentals_agent data = Ok out ->
  exists s c,
    out !! "fundamentals_signal" = Some (VStr s)
    /\ out !! "fundamentals_confidence" = Some (VNum c)
    /\ (s = "bullish" \/ s = "bearish" \/ s = "neutral")
    /\ 1#5 <= c <= 1.
Proof.
  unfold Fundamentals.fundamentals_agent. intros H.
  destruct (first_metrics data) as [m|]; [|discriminate]. simpl in H.
  pose proof (analyse_range m) as [Hs Hc].
  destruct (Fundamentals.analyse m) as [s c]. injection H as <-.
  exists s, c. split_and!.
  - rewrite lookup_insert_ne by discriminate. apply lookup_insert_eq.
  - apply lookup_insert_eq.
  - exact Hs.
  - apply Hc.
  - apply Hc.
Qed.

Lemma fundamentals_publishes_signal_in_range_witness :
  let data := Examples.context (Examples.scenario_metrics 1 1000) in
  let out := <["fundamentals_confidence" := VNum 1]>
               (<["fundamentals_signal" := VStr "bullish"]> data) in
  Fundamentals.fundamentals_agent data = Ok out
  /\ exists s c,
      out !! "fundamentals_signal" = Some (VStr s)
      /\ out !! "fundamentals_confidence" = Some (VNum c)
      /\ 1#5 <= c <= 1.
Proof.
  intros data out.
  assert (E : Fundamentals.fundamentals_agent data = Ok out)
    by reflexivity.
  split; [exact E|].
  destruct (fundamentals_publishes_signal_in_range _ _ E)
    as (s & c & H1 & H2 & _ & H3).
  exists s, c. auto.
Defined.

Import Sentiment.

Lemma buys_le_length (ts : list insider_trade) :
  (0 <= buys ts <= Z.of_nat (length ts))%Z.
Proof.
  unfold buys. split; [lia|]. apply Nat2Z.inj_le, length_filter.
Qed.

Lemma ratio_range (a b : Z) : (0 <= a <= b)%Z -> (0 < b)%Z ->
  0 <= inject_Z a / inject_Z b <= 1.
Proof.
  intros [H1 H2] Hb.
  assert (0 < inject_Z b) by (unfold Qlt; simpl; lia).
  assert (0 <= inject_Z a) by (unfold Qle; simpl; lia).
  assert (inject_Z a <= inject_Z b) by (unfold Qle; simpl; lia).
  split.
  - apply Qle_shift_div_l; [assumption|]. lra.
  - apply Qle_shift_div_r; [assumption|]. lra.
Qed.

(** X7.  For every list of insider trades the buy ratio lies in [0,1],
    the signal is one of the three names, the confidence lies in
    [0.5, 1], and a signal that is not neutral has a confidence above
    0.7. *)
Theorem sentiment_ranges (ts : list insider_trade) :
  let im := (analyse ts).1.1 in
  let signal := (analyse ts).1.2 in
  let confidence := (analyse ts).2 in
  0 <= buy_ratio im <= 1
  /\ (signal = "bullish" \/ signal = "bearish" \/ signal = "neutral")
  /\ 1#2 <= confidence <= 1
  /\ (signal <> "neutral" -> 7#10 < confidence).
Proof.
  destruct ts as [|t ts']; [vm_compute; intuition discriminate|].
  set (ts := t :: ts').
  pose proof (ratio_range (buys ts) (Z.of_nat (length ts)) (buys_le_length ts)
                ltac:(simpl; lia)) as Hbr.
  unfold analyse. fold ts. cbn zeta.
  set (br := inject_Z (buys ts) / inject_Z (Z.of_nat (length ts))) in *.
  set (tv := sum_or_0 (dropna (map value_ ts))).
  change (match ts with [] => _ | _ :: _ => ?x end) with x.
  cbn [buy_ratio total_value].
  destruct (Py.gt br (7#10)) eqn:E1; [destruct (Py.gt tv 1000000) eqn:E2|];
    cbn [andb].
  - cbn [fst snd buy_ratio]. apply gt_true in E1.
    pose proof (min_le_l 1 br). pose proof (min_glb 1 br (71#100)).
    assert (7#10 < Py.min 1 br)
      by (unfold Py.min; destruct (Qlt_le_dec br 1); lra).
    split_and!; (lra || tauto).
  - destruct (Py.lt br (3#10)); cbn [andb fst snd buy_ratio];
      split_and!; (lra || tauto || congruence).
  - destruct (Py.lt br (3#10)) eqn:E3; [destruct (Py.gt tv 1000000) eqn:E2|];
      cbn [andb fst snd buy_ratio].
    + apply lt_true in E3.
      assert (7#10 < Py.min 1 (1 - br) /\ Py.min 1 (1 - br) <= 1)
        by (unfold Py.min; destruct (Qlt_le_dec (1 - br) 1); lra).
      split_and!; (lra || tauto).
    + split_and!; (lra || tauto || congruence).
    + split_and!; (lra || tauto || congruence).
Qed.

End AnalyzerExtras.

(** ** Sentiment Analyzer: the order of the trades *)

Section SentimentFacts.

Import Sentiment.
Open Scope Q_scope.

Lemma analyse_nonempty (ts : list insider_trade) :
  ts <> [] ->
  let br := inject_Z (buys ts) / inject_Z (Z.of_nat (length ts)) in
  let tv := sum_or_0 (dropna (map value_ ts)) in
  ((analyse ts).1.2, (analyse ts).2)
  = if Py.gt br (7#10) && Py.gt tv 1000000 then ("bullish", Py.min 1 br)
    else if Py.lt br (3#10) && Py.gt tv 1000000
         then ("bearish", Py.min 1 (1 - br))
         else ("neutral", 1#2).
Proof.
  destruct ts as [|t ts']; [congruence|]. intros _ br tv.
  unfold analyse. fold br tv. cbn [buy_ratio total_value].
  destruct (Py.gt br (7#10) && Py.gt tv 1000000);
    [|destruct (Py.lt br (3#10) && Py.gt tv 1000000)]; reflexivity.
Qed.

End SentimentFacts.

(** ** Stages: errors, repetition and order *)

Section StageExtras.

Open Scope Q_scope.

(** X9.  The two stages that read the metrics raise [KeyError] when the
    context has no ["financial_metrics"] and [IndexError] when the list
    under it is empty; with a non-empty list the Fundamentals Analyzer
    always returns, and what it publishes depends on the first record
    only. *)
Theorem metrics_stages_errors (data : gmap string value) :
  (data !! "financial_metrics" = None ->
     Fundamentals.fundamentals_agent data = Raise (KeyError "financial_metrics")
     /\ Risk.risk_management_agent data = Raise (KeyError "financial_metrics"))
  /\ (data !! "financial_metrics" = Some (VMetrics []) ->
      Fundamentals.fundamentals_agent data = Raise IndexError
      /\ Risk.risk_management_agent data = Raise IndexError)
  /\ (forall m rest,
      data !! "financial_metrics" = Some (VMetrics (m :: rest)) ->
      Fundamentals.fundamentals_agent data
      = Ok (<["fundamentals_confidence" := VNum (Fundamentals.analyse m).2]>
              (<["fundamentals_signal" := VStr (Fundamentals.analyse m).1]> data))).
Proof.
  unfold Fundamentals.fundamentals_agent, Risk.risk_management_agent,
    first_metrics, subscript.
  split_and!.
  - intros ->. auto.
  - intros ->. auto.
  - intros m rest ->. simpl. destruct (Fundamentals.analyse m). reflexivity.
Qed.

Lemma metrics_stages_errors_witness :
  Fundamentals.fundamentals_agent ∅ = Raise (KeyError "financial_metrics")
  /\ Risk.risk_management_agent ∅ = Raise (KeyError "financial_metrics").
Proof.
  destruct (metrics_stages_errors ∅) as (H & _). apply H. reflexivity.
Defined.

(** X10.  The Sentiment Analyzer raises [KeyError] when the context has no
    ["insider_trades"], and returns for every list of trades, the empty
    one included. *)
Theorem sentiment_agent_errors (data : gmap string value) :
  (data !! "insider_trades" = None ->
     Sentiment.sentiment_agent data = Raise (KeyError "insider_trades"))
  /\ (forall ts, data !! "insider_trades" = Some (VTrades ts) ->
      exists out, Sentiment.sentiment_agent data = Ok out)
  /\ (data !! "insider_trades" = Some (VTrades []) ->
      Sentiment.sentiment_agent data
      = Ok (<["sentiment_confidence" := VNum (1#2)]>
              (<["sentiment_signal" := VStr "neutral"]> data))).
Proof.
  unfold Sentiment.sentiment_agent, Sentiment.trades_of, subscript.
  split_and!.
  - intros ->. reflexivity.
  - intros ts ->. simpl. destruct (Sentiment.analyse ts) as [[im s] c]. eauto.
  - intros ->. reflexivity.
Qed.

Lemma sentiment_agent_errors_witness :
  Sentiment.sentiment_agent ∅ = Raise (KeyError "insider_trades").
Proof.
  destruct (sentiment_agent_errors ∅) as (H & _). apply H. reflexivity.
Defined.

Lemma insert2_idempotent (data : gmap string value) (k1 k2 : string) (v1 v2 : value) :
  <[k2 := v2]> (<[k1 := v1]> (<[k2 := v2]> (<[k1 := v1]> data)))
  = <[k2 := v2]> (<[k1 := v1]> data).
Proof.
  apply map_eq. intros k. rewrite !lookup_insert.
  repeat case_decide; reflexivity.
Qed.

Lemma get_insert_ne (data : gmap string value) (k j : string) (v d : value) :
  k <> j -> get (<[k := v]> data) j d = get data j d.
Proof. intros H. unfold get. rewrite lookup_insert_ne by exact H. reflexivity. Qed.

Lemma first_metrics_insert_ne (data : gmap string value) (k : string) (v : value) :
  k <> "financial_metrics" ->
  first_metrics (<[k := v]> data) = first_metrics data.
Proof.
  intros H. unfold first_metrics, subscript.
  rewrite lookup_insert_ne by exact H. reflexivity.
Qed.

Lemma trades_of_insert_ne (data : gmap string value) (k : string) (v : value) :
  k <> "insider_trades" ->
  Sentiment.trades_of (<[k := v]> data) = Sentiment.trades_of data.
Proof.
  intros H. unfold Sentiment.trades_of, subscript.
  rewrite lookup_insert_ne by exact H. reflexivity.
Qed.

Lemma signals_insert_risk (data : gmap string value) (v1 v2 : value) :
  Risk.signals (<["position_size" := v2]> (<["risk_signal" := v1]> data))
  = Risk.signals data.
Proof.
  unfold Risk.signals. rewrite !get_insert_ne by discriminate. reflexivity.
Qed.

Lemma make_decision_insert_final (data : gmap string value) (v : value) :
  Portfolio.make_decision (<["final_decision" := v]> data)
  = Portfolio.make_decision data.
Proof.
  unfold Portfolio.make_decision, Portfolio.portfolio_of, Portfolio.last_close,
    subscript.
  rewrite !get_insert_ne by discriminate.
  rewrite !lookup_insert_ne by discriminate. reflexivity.
Qed.

(** X11.  Every stage is idempotent: run again on its own output it
    returns that output unchanged. *)
Theorem stages_idempotent (data out : gmap string value) :
  (Fundamentals.fundamentals_agent data = Ok out ->
     Fundamentals.fundamentals_agent out = Ok out)
  /\ (Sentiment.sentiment_agent data = Ok out ->
      Sentiment.sentiment_agent out = Ok out)
  /\ (Risk.risk_management_agent data = Ok out ->
      Risk.risk_management_agent out = Ok out)
  /\ (Portfolio.portfolio_management_agent data = Ok out ->
      Portfolio.portfolio_management_agent out = Ok out).
Proof.
  split_and!.
  - unfold Fundamentals.fundamentals_agent. intros H.
    destruct (first_metrics data) as [m|] eqn:Hm; [|discriminate]. simpl in H.
    destruct (Fundamentals.analyse m) as [s c] eqn:Ha. injection H as <-.
    rewrite !first_metrics_insert_ne, Hm by discriminate. simpl.
    rewrite Ha, insert2_idempotent. reflexivity.
  - unfold Sentiment.sentiment_agent. intros H.
    destruct (Sentiment.trades_of data) as [ts|] eqn:Hm; [|discriminate].
    simpl in H.
    destruct (Sentiment.analyse ts) as [[im s] c] eqn:Ha. injection H as <-.
    rewrite !trades_of_insert_ne, Hm by discriminate. simpl.
    rewrite Ha, insert2_idempotent. reflexivity.
  - intros H.
    destruct (risk_management_agent_inv _ _ H) as (m & bw & brw & Hm & Hb & Hr).
    rewrite (risk_management_agent_eq _ _ _ _ Hm Hb Hr) in H.
    injection H as <-.
    rewrite (risk_management_agent_eq _ m bw brw).
    + rewrite insert2_idempotent. reflexivity.
    + rewrite !first_metrics_insert_ne by discriminate. exact Hm.
    + rewrite signals_insert_risk. exact Hb.
    + rewrite signals_insert_risk. exact Hr.
  - unfold Portfolio.portfolio_management_agent. intros H.
    destruct (Portfolio.make_decision data) as [d|] eqn:Hd; [|discriminate].
    injection H as <-.
    rewrite make_decision_insert_final, Hd. simpl.
    rewrite insert_insert_eq. reflexivity.
Qed.

Lemma stages_idempotent_witness :
  let data := Examples.context (Examples.scenario_metrics 1 1000) in
  let out := <["fundamentals_confidence" := VNum 1]>
               (<["fundamentals_signal" := VStr "bullish"]> data) in
  Fundamentals.fundamentals_agent out = Ok out.
Proof.
  intros data out.
  destruct (stages_idempotent data out) as (H & _). apply H. reflexivity.
Defined.

(** X12.  The Fundamentals and Sentiment Analyzers commute: run in either
    order they return the same context, and if one order fails so does
    the other. *)
Theorem fundamentals_sentiment_commute (data out : gmap string value) :
  bind (Fundamentals.fundamentals_agent data) Sentiment.sentiment_agent = Ok out
  <-> bind (Sentiment.sentiment_agent data) Fundamentals.fundamentals_agent = Ok out.
Proof.
  unfold Fundamentals.fundamentals_agent, Sentiment.sentiment_agent.
  destruct (first_metrics data) as [m|] eqn:Hm;
    destruct (Sentiment.trades_of data) as [ts|] eqn:Ht; simpl.
  - destruct (Fundamentals.analyse m) as [s c] eqn:Ha.
    destruct (Sentiment.analyse ts) as [[im s'] c'] eqn:Hs. simpl.
    rewrite !trades_of_insert_ne, Ht by discriminate.
    rewrite !first_metrics_insert_ne, Hm by discriminate. simpl.
    rewrite Ha, Hs.
    match goal with
    | |- Ok ?a = _ <-> Ok ?b = _ => assert (a = b) as ->
    end.
    { apply map_eq. intros k. rewrite !lookup_insert.
      repeat case_decide; congruence. }
    reflexivity.
  - destruct (Fundamentals.analyse m) as [s c]. simpl.
    rewrite !trades_of_insert_ne, Ht by discriminate. simpl.
    split; discriminate.
  - destruct (Sentiment.analyse ts) as [[im s'] c']. simpl.
    rewrite !first_metrics_insert_ne, Hm by discriminate. simpl.
    split; discriminate.
  - split; discriminate.
Qed.

End StageExtras.

(** ** Portfolio Manager: further properties *)

Section PortfolioExtras.

Import Portfolio.
Open Scope Q_scope.

(** X13.  An order is one of buy, sell and hold with a quantity that is
    not negative; it is hold exactly when the quantity is 0; and
    carrying it out brings the held shares to the target. *)
Theorem order_well_formed (target current_shares : Z) :
  let action := (order target current_shares).1 in
  let quantity := (order target current_shares).2 in
  (action = "buy" \/ action = "sell" \/ action = "hold")
  /\ (0 <= quantity)%Z
  /\ (action = "hold" <-> quantity = 0%Z)
  /\ (action = "buy" -> (current_shares + quantity)%Z = target)
  /\ (action = "sell" -> (current_shares - quantity)%Z = target)
  /\ (action = "hold" -> current_shares = target).
Proof.
  unfold order.
  destruct (Z.ltb_spec current_shares target);
    [|destruct (Z.ltb_spec target current_shares)]; simpl;
    split_and!; try tauto; try lia; try discriminate;
    split; (discriminate || lia || reflexivity).
Qed.








(** X16.  The Portfolio Manager raises [KeyError] for a missing
    ["portfolio"] (also when ["prices"] is missing too) and for a
    missing ["prices"], [IndexError] for an empty price list, and it
    fails when one of the four upstream confidences is not a number,
    although the order does not depend on them. *)
Theorem portfolio_manager_errors (data : gmap string value) :
  (data !! "portfolio" = None ->
     portfolio_management_agent data = Raise (KeyError "portfolio"))
  /\ (forall p, data !! "portfolio" = Some (VPortfolio p) ->
      data !! "prices" = None ->
      portfolio_management_agent data = Raise (KeyError "prices"))
  /\ (forall p, data !! "portfolio" = Some (VPortfolio p) ->
      data !! "prices" = Some (VPrices []) ->
      portfolio_management_agent data = Raise IndexError)
  /\ (forall p price ps, reads data = Ok (p, price, ps) ->
      ~ confidences_numeric data ->
      exists e, portfolio_management_agent data = Raise e).
Proof.
  unfold portfolio_management_agent, make_decision, reads, portfolio_of,
    last_close, subscript.
  split_and!.
  - intros ->. reflexivity.
  - intros p -> ->. reflexivity.
  - intros p -> ->. reflexivity.
  - intros p price ps Hr Hn.
    destruct (data !! "portfolio") as [[]|]; try discriminate. simpl in *.
    destruct (data !! "prices") as [[]|]; try discriminate. simpl in *.
    destruct (last ps0); try discriminate. simpl in *.
    destruct (as_num (get data "position_size" (VNum 0))); [|discriminate].
    simpl. destruct (decide p0 (close p1) a) as [act q].
    destruct (get data "fundamentals_confidence" (VNum (1 # 2))) eqn:E1;
      try (eexists; reflexivity).
    destruct (get data "technical_confidence" (VNum (1 # 2))) eqn:E2;
      try (eexists; reflexivity).
    destruct (get data "sentiment_confidence" (VNum (1 # 2))) eqn:E3;
      try (eexists; reflexivity).
    destruct (get data "valuation_confidence" (VNum (1 # 2))) eqn:E4;
      try (eexists; reflexivity).
    exfalso. apply Hn. unfold confidences_numeric, Risk.signals.
    rewrite E1, E2, E3, E4. repeat constructor.
Qed.

Lemma portfolio_manager_errors_witness :
  portfolio_management_agent ∅ = Raise (KeyError "portfolio").
Proof.
  destruct (portfolio_manager_errors ∅) as (H & _). apply H. reflexivity.
Defined.

End PortfolioExtras.

(** ** One stage after another *)

Section PipelineExtras.

Open Scope Q_scope.

(** X17.  When the fundamentals signal is the only upstream signal in the
    context, the Risk Manager run after the Fundamentals Analyzer
    publishes that very signal as its own. *)
Theorem risk_follows_lone_fundamentals (data d1 : gmap string value) :
  data !! "technical_signal" = None ->
  data !! "sentiment_signal" = None ->
  data !! "valuation_signal" = None ->
  Fundamentals.fundamentals_agent data = Ok d1 ->
  exists out,
    Risk.risk_management_agent d1 = Ok out
    /\ out !! "risk_signal" = d1 !! "fundamentals_signal".
Proof.
  intros H1 H2 H3. unfold Fundamentals.fundamentals_agent. intros H.
  destruct (first_metrics data) as [m|] eqn:Hm; [|discriminate]. simpl in H.
  pose proof (analyse_range m) as [Hs [Hc _]].
  destruct (Fundamentals.analyse m) as [s c]. simpl in Hs, Hc.
  injection H as <-.
  set (d1 := <["fundamentals_confidence" := VNum c]>
               (<["fundamentals_signal" := VStr s]> data)).
  assert (Hm1 : first_metrics d1 = Ok m)
    by (unfold d1; rewrite !first_metrics_insert_ne by discriminate; exact Hm).
  assert (Hsig : Risk.signals d1
                 = [ (VStr s, VNum c);
                     (VStr "neutral", get data "technical_confidence" (VNum (1#2)));
                     (VStr "neutral", get data "sentiment_confidence" (VNum (1#2)));
                     (VStr "neutral", get data "valuation_confidence" (VNum (1#2))) ]).
  { unfold Risk.signals, d1, get.
    repeat (rewrite lookup_insert_eq
            || rewrite lookup_insert_ne by discriminate).
    rewrite H1, H2, H3. reflexivity. }
  assert (Hl : d1 !! "fundamentals_signal" = Some (VStr s)).
  { unfold d1. rewrite lookup_insert_ne by discriminate. apply lookup_insert_eq. }
  rewrite Hl.
  destruct Hs as [Hs | [Hs | Hs]]; subst s.
  - eexists. split.
    + apply (risk_management_agent_eq d1 m (0 + c) 0 Hm1);
        rewrite Hsig; reflexivity.
    + rewrite lookup_insert_ne by discriminate. rewrite lookup_insert_eq.
      unfold Risk.decide_position.
      assert (Py.gt (0 + c) 0 = true) as -> by (apply gt_true; lra).
      reflexivity.
  - eexists. split.
    + apply (risk_management_agent_eq d1 m 0 (0 + c) Hm1);
        rewrite Hsig; reflexivity.
    + rewrite lookup_insert_ne by discriminate. rewrite lookup_insert_eq.
      unfold Risk.decide_position.
      assert (Py.gt 0 (0 + c) = false) as -> by (apply gt_false; lra).
      assert (Py.gt (0 + c) 0 = true) as -> by (apply gt_true; lra).
      reflexivity.
  - eexists. split.
    + apply (risk_management_agent_eq d1 m 0 0 Hm1);
        rewrite Hsig; reflexivity.
    + rewrite lookup_insert_ne by discriminate. rewrite lookup_insert_eq.
      reflexivity.
Qed.

Lemma risk_follows_lone_fundamentals_witness :
  let data := <["financial_metrics" :=
                  VMetrics [Examples.scenario_metrics 1 1000]]> ∅ in
  let d1 := <["fundamentals_confidence" := VNum 1]>
              (<["fundamentals_signal" := VStr "bullish"]> data) in
  exists out,
    Risk.risk_management_agent d1 = Ok out
    /\ out !! "risk_signal" = d1 !! "fundamentals_signal".
Proof.
  intros data d1.
  apply (risk_follows_lone_fundamentals data d1); reflexivity.
Defined.



End PipelineExtras.

(** ** Data provider: properties *)

Section ApiExtras.

Import Api.
Open Scope Q_scope.

Lemma per_share_fallback
    (info : gmap string Q) (financials cash_flow : list (gmap string Q)) :
  ~ 0 < info_get info "sharesOutstanding" 0
  \/ financials = [] \/ cash_flow = [] ->
  per_share info financials cash_flow = Ok (info_get info "trailingEps" 0, 0).
Proof.
  intros H. unfold per_share.
  destruct (Py.gt (info_get info "sharesOutstanding" 0) 0) eqn:E; [|reflexivity].
  apply gt_true in E. destruct H as [H | [-> | ->]]; [lra|reflexivity|].
  destruct financials; reflexivity.
Qed.

Lemma per_share_total
    (info : gmap string Q) (financials cash_flow : list (gmap string Q)) :
  exists r, per_share info financials cash_flow = Ok r.
Proof.
  unfold per_share.
  destruct (Py.gt (info_get info "sharesOutstanding" 0) 0); [|eauto].
  destruct financials as [|r0 rs]; [simpl; eauto|].
  destruct cash_flow as [|c0 cs]; simpl; eauto.
Qed.

(** X19.  [get_financial_metrics] always returns a list of exactly one
    record, also when the statement frames are empty.  Without a
    positive share count, or with an empty income or cash-flow frame,
    the free cash flow per share is 0 and the earnings per share are
    [trailingEps] (0 when absent); otherwise they are the first row's
    net income and free cash flow divided by the share count. *)
Theorem get_financial_metrics_one_record
    (info : gmap string Q) (financials cash_flow : list (gmap string Q)) :
  let shares := info_get info "sharesOutstanding" 0 in
  exists ms,
    get_financial_metrics info financials cash_flow = Ok [ms]
    /\ (~ 0 < shares \/ financials = [] \/ cash_flow = [] ->
        free_cash_flow_per_share (agent_metrics ms) = 0
        /\ earnings_per_share (agent_metrics ms) = info_get info "trailingEps" 0)
    /\ (forall r0 rs c0 cs,
        0 < shares -> financials = r0 :: rs -> cash_flow = c0 :: cs ->
        earnings_per_share (agent_metrics ms) * shares == row_get r0 "Net Income"
        /\ free_cash_flow_per_share (agent_metrics ms) * shares
           == row_get c0 "Free Cash Flow").
Proof.
  intros shares. unfold get_financial_metrics, per_share. fold shares.
  destruct (Py.gt shares 0) eqn:E.
  - apply gt_true in E.
    destruct financials as [|r0 rs]; [|destruct cash_flow as [|c0 cs]]; simpl;
      eexists; (split; [reflexivity|]); simpl; split.
    + auto.
    + intros; discriminate.
    + auto.
    + intros; discriminate.
    + intros [H|[H|H]]; [lra|discriminate|discriminate].
    + intros r0' rs' c0' cs' _ H1 H2.
      injection H1 as <- <-. injection H2 as <- <-.
      split; field; lra.
  - apply gt_false in E. simpl.
    eexists; (split; [reflexivity|]); simpl; split.
    + auto.
    + intros; lra.
Qed.

Lemma get_financial_metrics_one_record_witness :
  exists ms,
    get_financial_metrics ∅ [] [] = Ok [ms]
    /\ free_cash_flow_per_share (agent_metrics ms) = 0
    /\ earnings_per_share (agent_metrics ms) = 0.
Proof.
  destruct (get_financial_metrics_one_record ∅ [] []) as (ms & H1 & H2 & _).
  exists ms. split; [exact H1|]. apply H2. right. left. reflexivity.
Defined.

(** X20.  On a context holding the result of [get_financial_metrics], the
    Fundamentals Analyzer always returns; and when the provider had no
    positive share count or no statement rows, the cash-flow sub-signal
    cannot be bullish: it is neutral for negative earnings per share and
    bearish otherwise. *)
Theorem fundamentals_on_provided_metrics
    (info : gmap string Q) (financials cash_flow : list (gmap string Q))
    (ms : list financial_metrics) (data : gmap string value) :
  get_financial_metrics info financials cash_flow = Ok ms ->
  data !! "financial_metrics" = Some (VMetrics (map agent_metrics ms)) ->
  exists m out,
    first_metrics data = Ok m
    /\ Fundamentals.fundamentals_agent data = Ok out
    /\ (~ 0 < info_get info "sharesOutstanding" 0
        \/ financials = [] \/ cash_flow = [] ->
        Fundamentals.sub_signals m !! 3%nat
        = Some (if Py.lt (earnings_per_share m) 0 then "neutral" else "bearish")).
Proof.
  intros Hget Hdata. unfold get_financial_metrics in Hget.
  destruct (per_share_total info financials cash_flow) as [[eps fcf] Hps].
  pose proof (per_share_fallback info financials cash_flow) as Hfall.
  rewrite Hps in Hget, Hfall. simpl in Hget. injection Hget as <-.
  simpl in Hdata.
  match type of Hdata with
  | _ = Some (VMetrics [?r]) => set (m := r) in *
  end.
  assert (Hfm : first_metrics data = Ok m)
    by (unfold first_metrics, subscript; rewrite Hdata; reflexivity).
  exists m. unfold Fundamentals.fundamentals_agent. rewrite Hfm. simpl.
  destruct (Fundamentals.analyse m) as [s c].
  eexists. split; [reflexivity|]. split; [reflexivity|].
  intros Hc. specialize (Hfall Hc). injection Hfall as -> ->.
  unfold Fundamentals.sub_signals. simpl. f_equal.
  unfold Fundamentals.cash_flow_score, m. simpl.
  destruct (Py.gt 0 (info_get info "trailingEps" 0 * (8 # 10))) eqn:E1;
    destruct (Py.lt (info_get info "trailingEps" 0) 0) eqn:E2;
    try reflexivity; exfalso.
  - apply gt_true in E1. apply lt_false in E2. lra.
  - apply gt_false in E1. apply lt_true in E2. lra.
Qed.

Lemma fundamentals_on_provided_metrics_witness :
  exists ms m out,
    get_financial_metrics ∅ [] [] = Ok ms
    /\ first_metrics (<["financial_metrics" := VMetrics (map agent_metrics ms)]> ∅)
       = Ok m
    /\ Fundamentals.fundamentals_agent
         (<["financial_metrics" := VMetrics (map agent_metrics ms)]> ∅) = Ok out
    /\ Fundamentals.sub_signals m !! 3%nat = Some "bearish".
Proof.
  destruct (get_financial_metrics ∅ [] []) as [ms|e] eqn:E; [|discriminate].
  destruct (fundamentals_on_provided_metrics ∅ [] [] ms
              (<["financial_metrics" := VMetrics (map agent_metrics ms)]> ∅) E)
    as (m & out & H1 & H2 & H3).
  - apply lookup_insert_eq.
  - exists ms, m, out. split; [reflexivity|]. split; [exact H1|].
    split; [exact H2|].
    rewrite H3 by (right; left; reflexivity).
    injection E as <-. simpl in H1.
    unfold first_metrics, subscript in H1. rewrite lookup_insert_eq in H1.
    simpl in H1. injection H1 as <-. reflexivity.
Defined.

Lemma pad_iter (n : nat) (results : list (gmap string Q)) :
  Nat.iter n pad_once results
  = (results ++ replicate n (match last results with Some r => r | None => ∅ end))%list.
Proof.
  induction n as [|n IH]; simpl.
  - rewrite app_nil_r. reflexivity.
  - rewrite IH. unfold pad_once at 1.
    set (d := match last results with Some r => r | None => ∅ end).
    assert (last (results ++ replicate n d)%list = Some d \/
            (n = 0%nat /\ last (results ++ replicate n d)%list = last results)) as H.
    { destruct n as [|n]; [right; simpl; rewrite app_nil_r; auto|left].
      rewrite replicate_S_end, app_assoc. apply last_snoc. }
    assert (match last (results ++ replicate n d)%list with
            | Some r => r | None => ∅ end = d) as ->.
    { destruct H as [-> | [_ ->]]; reflexivity. }
    rewrite <- app_assoc. f_equal. symmetry. apply replicate_S_end.
Qed.

Lemma search_line_items_eq
    (line_items : list string) (limit : Z)
    (financials cash_flow balance_sheet : list (gmap string Q)) :
  let k := Z.to_nat (Z.min limit (Z.of_nat (length financials))) in
  search_line_items line_items limit financials cash_flow balance_sheet
  = (map (period line_items financials cash_flow balance_sheet) (seq 0 k)
     ++ replicate (Z.to_nat limit - k)
          (match k with
           | O => ∅
           | S j => period line_items financials cash_flow balance_sheet j
           end))%list.
Proof.
  intros k. unfold search_line_items, pad. fold k.
  set (base := map (period line_items financials cash_flow balance_sheet) (seq 0 k)).
  assert (Hlen : length base = k)
    by (unfold base; rewrite length_map, length_seq; reflexivity).
  rewrite pad_iter, Hlen. f_equal. f_equal.
  rewrite last_lookup, Hlen. destruct k as [|j]; [subst base; reflexivity|].
  simpl. unfold base. rewrite list_lookup_fmap, lookup_seq_lt by lia.
  reflexivity.
Qed.

(** X21.  For a limit that is not negative [search_line_items] returns
    exactly [limit] dicts: one per available period, up to the limit,
    followed by copies of the last of them, or by empty dicts when no
    period is available. *)
Theorem search_line_items_padded
    (line_items : list string) (limit : Z)
    (financials cash_flow balance_sheet : list (gmap string Q)) :
  let results :=
    search_line_items line_items limit financials cash_flow balance_sheet in
  let k := Z.to_nat (Z.min limit (Z.of_nat (length financials))) in
  length results = Z.to_nat limit
  /\ (forall i, (i < k)%nat ->
      results !! i
      = Some (period line_items financials cash_flow balance_sheet i))
  /\ (forall i, (k <= i < Z.to_nat limit)%nat ->
      results !! i
      = Some (match k with
              | O => ∅
              | S j => period line_items financials cash_flow balance_sheet j
              end)).
Proof.
  intros results k. subst results. rewrite search_line_items_eq. fold k.
  assert (Hk : (k <= Z.to_nat limit)%nat) by (unfold k; lia).
  assert (Hlen : length (map (period line_items financials cash_flow balance_sheet)
                           (seq 0 k)) = k)
    by (rewrite length_map, length_seq; reflexivity).
  split_and!.
  - rewrite length_app, length_replicate, Hlen. lia.
  - intros i Hi. rewrite lookup_app_l by lia.
    rewrite list_lookup_fmap, lookup_seq_lt by lia. reflexivity.
  - intros i Hi. rewrite lookup_app_r by lia.
    rewrite lookup_replicate_2 by lia. reflexivity.
Qed.

Ltac in_list :=
  repeat first [apply list_elem_of_here | apply list_elem_of_further].

Lemma add_item_keys (line_items : list string) (frame : list (gmap string Q))
    (i : nat) (item column key : string) (result : gmap string Q) :
  is_Some (add_item line_items frame i item column result !! key) ->
  (key = item /\ item ∈ line_items) \/ is_Some (result !! key).
Proof.
  unfold add_item.
  destruct (bool_decide (item ∈ line_items)) eqn:E; simpl; [|auto].
  apply bool_decide_eq_true in E.
  destruct (bool_decide (i < length frame)%nat); [|auto].
  destruct (frame !! i); [|auto].
  rewrite lookup_insert. case_decide; [subst; auto|auto].
Qed.

Lemma period_keys (line_items : list string)
    (financials cash_flow balance_sheet : list (gmap string Q)) (i : nat)
    (key : string) :
  is_Some (period line_items financials cash_flow balance_sheet i !! key) ->
  key ∈ line_items
  /\ key ∈ ["free_cash_flow"; "net_income"; "depreciation_and_amortization";
            "capital_expenditure"; "working_capital"].
Proof.
  unfold period. intros H.
  assert (Hrest :
    is_Some (add_item line_items cash_flow i "capital_expenditure"
               "Capital Expenditure"
               (add_item line_items cash_flow i "depreciation_and_amortization"
                  "Depreciation"
                  (add_item line_items financials i "net_income" "Net Income"
                     (add_item line_items cash_flow i "free_cash_flow"
                        "Free Cash Flow" ∅))) !! key) ->
    key ∈ line_items
    /\ key ∈ ["free_cash_flow"; "net_income"; "depreciation_and_amortization";
              "capital_expenditure"; "working_capital"]).
  { intros H1.
    apply add_item_keys in H1 as [[-> ?] | H1]; [split; [assumption|in_list]|].
    apply add_item_keys in H1 as [[-> ?] | H1]; [split; [assumption|in_list]|].
    apply add_item_keys in H1 as [[-> ?] | H1]; [split; [assumption|in_list]|].
    apply add_item_keys in H1 as [[-> ?] | H1]; [split; [assumption|in_list]|].
    rewrite lookup_empty in H1. destruct H1; discriminate. }
  destruct (bool_decide ("working_capital" ∈ line_items)) eqn:E; simpl in H;
    [|auto].
  apply bool_decide_eq_true in E.
  destruct (bool_decide (i < length balance_sheet)%nat); [|auto].
  destruct (balance_sheet !! i); [|auto].
  rewrite lookup_insert in H. case_decide; [subst; split; [assumption|in_list]|auto].
Qed.

(** X22.  A dict returned by [search_line_items] only has keys that were
    asked for and are among the five line items the function knows. *)
Theorem search_line_items_keys
    (line_items : list string) (limit : Z)
    (financials cash_flow balance_sheet : list (gmap string Q))
    (r : gmap string Q) (key : string) :
  r ∈ search_line_items line_items limit financials cash_flow balance_sheet ->
  is_Some (r !! key) ->
  key ∈ line_items
  /\ key ∈ ["free_cash_flow"; "net_income"; "depreciation_and_amortization";
            "capital_expenditure"; "working_capital"].
Proof.
  intros Hin Hkey. rewrite search_line_items_eq in Hin.
  apply elem_of_app in Hin as [Hin|Hin].
  - apply list_elem_of_fmap in Hin as (i & -> & _).
    eapply period_keys. exact Hkey.
  - apply elem_of_replicate in Hin as [-> _].
    destruct (Z.to_nat (Z.min limit (Z.of_nat (length financials)))) as [|j].
    + rewrite lookup_empty in Hkey. destruct Hkey; discriminate.
    + eapply period_keys. exact Hkey.
Qed.

Lemma search_line_items_keys_witness :
  "net_income" ∈ ["net_income"; "working_capital"].
Proof.
  apply (search_line_items_keys ["net_income"; "working_capital"] 2
           [ {["Net Income" := 5]} ] [] [] {["net_income" := 5]} "net_income").
  - assert (search_line_items ["net_income"; "working_capital"] 2
              [ {["Net Income" := 5]} ] [] []
            = [ {["net_income" := 5]}; {["net_income" := 5]} ]) as ->
      by reflexivity.
    apply list_elem_of_here.
  - exists 5. reflexivity.
Defined.

End ApiExtras.

(** ** Data provider and agents together *)

Section ProvidedData.

Import Api.
Open Scope Q_scope.

Variable datetime : Type.
Variable strftime : datetime -> string.

Lemma head_length {A} (n : Z) (rows : list A) :
  (length (head n rows) <= length rows)%nat
  /\ ((0 <= n)%Z -> (length (head n rows) <= Z.to_nat n)%nat).
Proof.
  unfold head. destruct (Z.leb_spec 0 n); rewrite length_take; split; lia.
Qed.

Lemma provided_trades_all_buys
    (insider_purchases : option (list (purchase_row datetime))) (limit : Z) :
  Forall (fun t => transaction_type (trade t) = "buy")
    (get_insider_trades datetime strftime insider_purchases limit).
Proof.
  unfold get_insider_trades.
  destruct insider_purchases as [[|row rows]|]; try constructor.
  apply Forall_forall. intros t Ht.
  apply list_elem_of_fmap in Ht as (r & -> & _). reflexivity.
Qed.

(** X23.  [get_insider_trades] returns no more trades than there are rows
    and, for a limit that is not negative, no more than the limit; it
    tags every trade it returns as a "buy"; and it returns the empty
    list when yfinance has no frame or an empty one. *)
Theorem get_insider_trades_all_buys
    (insider_purchases : option (list (purchase_row datetime))) (limit : Z) :
  let trades := get_insider_trades datetime strftime insider_purchases limit in
  Forall (fun t => transaction_type (trade t) = "buy") trades
  /\ ((0 <= limit)%Z -> (length trades <= Z.to_nat limit)%nat)
  /\ (forall rows, insider_purchases = Some rows ->
      (length trades <= length rows)%nat)
  /\ (insider_purchases = None \/ insider_purchases = Some [] -> trades = []).
Proof.
  intros trades. subst trades. unfold get_insider_trades.
  destruct insider_purchases as [[|row rows]|]; simpl.
  - split_and!; auto; intros; simpl; lia.
  - set (l := row :: rows).
    pose proof (head_length limit l) as [H1 H2].
    split_and!.
    + apply (provided_trades_all_buys (Some l)).
    + intros Hl. rewrite length_map. auto.
    + intros rows' E. injection E as <-. rewrite length_map. exact H1.
    + intros [E|E]; discriminate.
  - split_and!; auto; intros; try discriminate; simpl; lia.
Qed.

Lemma all_buys_ratio (ts : list insider_trade) :
  ts <> [] ->
  Forall (fun t => transaction_type t = "buy") ts ->
  inject_Z (Sentiment.buys ts) / inject_Z (Z.of_nat (length ts)) == 1.
Proof.
  intros Hne Hall.
  assert (Hb : Sentiment.buys ts = Z.of_nat (length ts)).
  { unfold Sentiment.buys. f_equal. f_equal.
    induction Hall as [|t ts' Ht _ IH]; [reflexivity|].
    rewrite filter_cons, decide_True by exact Ht. f_equal.
    destruct ts' as [|t' ts'']; [reflexivity|]. apply IH. discriminate. }
  rewrite Hb.
  assert (0 < inject_Z (Z.of_nat (length ts))).
  { destruct ts; [congruence|]. unfold Qlt. simpl. lia. }
  field. lra.
Qed.

(** X24.  On the trades of [get_insider_trades], which are all tagged
    "buy", the Sentiment Analyzer is never bearish: its signal is
    bullish with confidence 1 or neutral with confidence 0.5, and
    neutral when there is no trade. *)
Theorem sentiment_on_provided_trades
    (insider_purchases : option (list (purchase_row datetime))) (limit : Z) :
  let ts := map trade (get_insider_trades datetime strftime insider_purchases limit) in
  let signal := (Sentiment.analyse ts).1.2 in
  let confidence := (Sentiment.analyse ts).2 in
  signal <> "bearish"
  /\ (signal = "bullish" -> confidence = 1)
  /\ (signal = "neutral" -> confidence = 1#2)
  /\ (signal = "bullish" \/ signal = "neutral")
  /\ (ts = [] -> signal = "neutral")
  /\ (forall data, data !! "insider_trades" = Some (VTrades ts) ->
      Sentiment.sentiment_agent data
      = Ok (<["sentiment_confidence" := VNum confidence]>
              (<["sentiment_signal" := VStr signal]> data))).
Proof.
  intros ts signal confidence.
  assert (Hall : Forall (fun t => transaction_type t = "buy") ts).
  { unfold ts. apply Forall_fmap.
    apply provided_trades_all_buys. }
  assert (Hagent : forall data, data !! "insider_trades" = Some (VTrades ts) ->
      Sentiment.sentiment_agent data
      = Ok (<["sentiment_confidence" := VNum confidence]>
              (<["sentiment_signal" := VStr signal]> data))).
  { intros data Hd. unfold Sentiment.sentiment_agent, Sentiment.trades_of, subscript.
    rewrite Hd. simpl. subst signal confidence.
    destruct (Sentiment.analyse ts) as [[im s] c]. reflexivity. }
  destruct (decide (ts = [])) as [He|Hne].
  - subst signal confidence. rewrite He in *. simpl.
    split_and!; auto; discriminate.
  - pose proof (analyse_nonempty ts Hne) as Han. cbn zeta in Han.
    pose proof (all_buys_ratio ts Hne Hall) as Hbr.
    set (br := inject_Z (Sentiment.buys ts) / inject_Z (Z.of_nat (length ts))) in *.
    set (tv := Sentiment.sum_or_0 (Sentiment.dropna (map value_ ts))) in *.
    assert (Py.gt br (7#10) = true) as E1 by (apply gt_true; lra).
    assert (Py.lt br (3#10) = false) as E2 by (apply lt_false; lra).
    assert (Py.min 1 br = 1) as E3
      by (unfold Py.min; destruct (Qlt_le_dec br 1); [lra|reflexivity]).
    rewrite E1, E2, E3 in Han. simpl in Han.
    assert (Hs : signal = if Py.gt tv 1000000 then "bullish" else "neutral").
    { subst signal. destruct (Py.gt tv 1000000); injection Han as -> _; reflexivity. }
    assert (Hc : confidence = if Py.gt tv 1000000 then 1 else 1#2).
    { subst confidence. destruct (Py.gt tv 1000000); injection Han as _ ->; reflexivity. }
    destruct (Py.gt tv 1000000) eqn:E4; rewrite Hs, Hc; split_and!;
      auto; try discriminate; try congruence;
      intros data Hd; rewrite (Hagent data Hd), Hs, Hc; reflexivity.
Qed.

(** X25.  On a context holding the result of [get_prices], the current
    price the Portfolio Manager reads is the [Close] of the last row of
    the history, and with an empty history the read raises
    [IndexError]. *)
Theorem last_close_of_provided_prices
    (history : list (history_row datetime)) (data : gmap string value) :
  data !! "prices" = Some (VPrices (map bar (get_prices datetime strftime history))) ->
  (history = [] -> Portfolio.last_close data = Raise IndexError)
  /\ (forall earlier row, history = (earlier ++ [row])%list ->
      Portfolio.last_close data = Ok (Close datetime row))
  /\ length (get_prices datetime strftime history) = length history.
Proof.
  intros Hd. unfold Portfolio.last_close, subscript. rewrite Hd. simpl.
  split_and!.
  - intros ->. reflexivity.
  - intros earlier row ->. unfold get_prices.
    rewrite !map_app. simpl. rewrite last_snoc. reflexivity.
  - unfold get_prices. apply length_map.
Qed.

End ProvidedData.

Lemma last_close_of_provided_prices_witness :
  let history : list (Api.history_row nat) :=
    [ Api.Build_history_row nat 1 10 12 9 11 1000;
      Api.Build_history_row nat 2 11 13 10 12 2000 ] in
  let data : gmap string value :=
    <["prices" := VPrices (map Api.bar (Api.get_prices nat (fun _ => "") history))]> ∅ in
  Portfolio.last_close data = Ok 12%Q.
Proof.
  intros history data.
  destruct (last_close_of_provided_prices nat (fun _ => "") history data)
    as (_ & H & _).
  - apply lookup_insert_eq.
  - apply (H [Api.Build_history_row nat 1 10 12 9 11 1000]
             (Api.Build_history_row nat 2 11 13 10 12 2000)).
    reflexivity.
Defined.

(** ** The properties above at concrete inputs *)

Lemma sentiment_ranges_witness :
  (7#10 < (Sentiment.analyse Examples.insider_buys).2)%Q.
Proof.
  destruct (sentiment_ranges Examples.insider_buys) as (_ & _ & _ & H).
  apply H. vm_compute. discriminate.
Defined.

Lemma order_well_formed_witness :
  (5 + (Portfolio.order 8 5).2 = 8)%Z.
Proof.
  destruct (order_well_formed 8 5) as (_ & _ & _ & H & _).
  apply H. reflexivity.
Defined.

Lemma search_line_items_padded_witness :
  Api.search_line_items ["net_income"] 3 [ {["Net Income" := 5%Q]} ] [] [] !! 2%nat
  = Some {["net_income" := 5%Q]}.
Proof.
  destruct (search_line_items_padded ["net_income"] 3
              [ {["Net Income" := 5%Q]} ] [] []) as (_ & _ & H).
  rewrite H by (simpl; lia). reflexivity.
Defined.

Lemma get_insider_trades_all_buys_witness :
  Api.get_insider_trades nat (fun _ => "") None 5 = [].
Proof.
  destruct (get_insider_trades_all_buys nat (fun _ => "") None 5)
    as (_ & _ & _ & H).
  apply H. left. reflexivity.
Defined.

Lemma sentiment_on_provided_trades_witness :
  let row := Api.Build_purchase_row nat None (Some "A")
               (Some (Some 100%Q)) (Some (Some 2000000%Q)) in
  let ts := map Api.trade
              (Api.get_insider_trades nat (fun _ => "") (Some [row]) 5) in
  (Sentiment.analyse ts).1.2 = "bullish" /\ (Sentiment.analyse ts).2 = 1%Q.
Proof.
  intros row ts.
  destruct (sentiment_on_provided_trades nat (fun _ => "") (Some [row]) 5)
    as (_ & H & _).
  split; [reflexivity|]. apply H. reflexivity.
Defined.

(** * The agents in binary64

    The statements of what each agent computes and publishes, over the
    embedding [F64]. *)

(** ** Binary64: comparisons and products *)

Section FloatFacts.

Open Scope float_scope.




Lemma SFmul_comm (x y : spec_float) : SF64mul x y = SF64mul y x.
Proof.
  unfold SF64mul.
  destruct x as [sx|sx| |sx mx ex], y as [sy|sy| |sy my ey]; simpl;
    try reflexivity; try (rewrite xorb_comm; reflexivity).
  rewrite xorb_comm, Pos.mul_comm, Z.add_comm. reflexivity.
Qed.

Lemma mul_comm (x y : float) : x * y = y * x.
Proof.
  apply Prim2SF_inj. rewrite !FloatAxioms.mul_spec. apply SFmul_comm.
Qed.

End FloatFacts.

(** ** Risk Manager in binary64 *)

Section RiskDecision.

Import F64 F64.Risk.
Open Scope float_scope.

Variable float_sum : list float -> float.


Lemma tagged_total (tag : string) (l : list (value * value)) :
  Forall (fun sc : value * value => is_num sc.2 = true) l ->
  tagged tag l = Ok (confidences_tagged tag l).
Proof.
  induction 1 as [|[sig conf] l Hn _ IH]; [reflexivity|].
  unfold confidences_tagged. simpl. fold (confidences_tagged tag l).
  destruct conf as [ |c| | | | |]; simpl in Hn; try discriminate.
  destruct sig as [t| | | | | |]; simpl; try exact IH.
  destruct (bool_decide (t = tag)); [|exact IH].
  rewrite IH. reflexivity.
Qed.



End RiskDecision.


(** ** Fundamentals Analyzer in binary64 *)

Section FundamentalsRefinement.

Import F64 F64.Fundamentals.
Open Scope float_scope.

Lemma f64_name_inj (s t : Spec.Signal) : Spec.name s = Spec.name t -> s = t.
Proof. destruct s, t; simpl; congruence. Qed.

Lemma f64_profitability_refines (m : metrics) :
  cut_ge2 (profitability_score m) = Spec.name (Spec.profitability m).
Proof.
  unfold profitability_score, Spec.profitability, Py.gt.
  destruct (0.15 <? return_on_equity m), (0.20 <? net_margin m),
           (0.15 <? operating_margin m); reflexivity.
Qed.

Lemma f64_growth_refines (m : metrics) :
  cut_ge2 (growth_score m) = Spec.name (Spec.growth m).
Proof.
  unfold growth_score, Spec.growth, Py.gt.
  destruct (0.10 <? revenue_growth m), (0.10 <? earnings_growth m),
           (0.10 <? book_value_growth m); reflexivity.
Qed.

Lemma f64_health_refines (m : metrics) :
  cut_ge2 (health_score m) = Spec.name (Spec.health m).
Proof.
  unfold health_score, Spec.health, Py.gt, Py.lt.
  destruct (debt_to_equity m <? 1.0), (1.5 <? current_ratio m),
           (1.0 <? quick_ratio m); reflexivity.
Qed.

Lemma f64_cash_flow_refines (m : metrics) :
  cut_eq2 (cash_flow_score m) = Spec.name (Spec.cash_flow m).
Proof.
  unfold cash_flow_score, Spec.cash_flow, Py.gt.
  rewrite (mul_comm (earnings_per_share m) 0.8).
  destruct (0.8 * earnings_per_share m <? free_cash_flow_per_share m),
           (0 <? free_cash_flow_per_share m); reflexivity.
Qed.

Lemma f64_valuation_refines (m : metrics) :
  cut_ge2 (valuation_score m) = Spec.name (Spec.valuation m).
Proof.
  unfold valuation_score, Spec.valuation, Py.gt, Py.lt.
  destruct (0 <? price_to_earnings m), (price_to_earnings m <? 30),
           (price_to_book m <? 5), (price_to_sales m <? 10); reflexivity.
Qed.

Lemma f64_sub_signals_refine (m : metrics) :
  sub_signals m = map Spec.name (Spec.sub_signals m).
Proof.
  unfold sub_signals, Spec.sub_signals. simpl.
  rewrite f64_profitability_refines, f64_growth_refines, f64_health_refines,
    f64_cash_flow_refines, f64_valuation_refines. reflexivity.
Qed.

Lemma f64_count_name (s : Spec.Signal) (l : list Spec.Signal) :
  count (Spec.name s) (map Spec.name l) = Z.of_nat (Spec.occurrences s l).
Proof.
  unfold count, Spec.occurrences. f_equal.
  induction l as [|x l IH]; [reflexivity|].
  simpl map. rewrite !filter_cons.
  destruct (decide (x = s)) as [->|Hne].
  - rewrite decide_True by reflexivity. simpl. f_equal. exact IH.
  - rewrite decide_False by (intros E; apply Hne, f64_name_inj, E). exact IH.
Qed.

Lemma f64_aggregate_refines (l : list Spec.Signal) :
  length l = 5%nat ->
  aggregate (map Spec.name l)
  = (Spec.name (Spec.aggregate l).1, (Spec.aggregate l).2).
Proof.
  intros Hlen. unfold aggregate, Spec.aggregate.
  change "bullish" with (Spec.name Spec.bullish).
  change "bearish" with (Spec.name Spec.bearish).
  rewrite !f64_count_name, length_map, Hlen.
  set (b := Spec.occurrences Spec.bullish l).
  set (r := Spec.occurrences Spec.bearish l).
  change (Z.of_nat 5) with 5%Z.
  destruct (decide (r < b /\ 3 <= b)%nat) as [[H1 H2]|Hn1].
  - assert ((Z.of_nat r <? Z.of_nat b)%Z = true) as -> by (apply Z.ltb_lt; lia).
    assert ((3 <=? Z.of_nat b)%Z = true) as -> by (apply Z.leb_le; lia).
    simpl. rewrite Z.abs_eq by lia. reflexivity.
  - assert (((Z.of_nat r <? Z.of_nat b) && (3 <=? Z.of_nat b))%Z = false) as ->.
    { apply andb_false_iff.
      destruct (Z.ltb_spec (Z.of_nat r) (Z.of_nat b)); [right|left; reflexivity].
      apply Z.leb_gt. apply Nat2Z.inj_lt in H. lia. }
    destruct (decide (b < r /\ 3 <= r)%nat) as [[H1 H2]|Hn2].
    + assert ((Z.of_nat b <? Z.of_nat r)%Z = true) as -> by (apply Z.ltb_lt; lia).
      assert ((3 <=? Z.of_nat r)%Z = true) as -> by (apply Z.leb_le; lia).
      simpl.
      replace (Z.abs (Z.of_nat b - Z.of_nat r)) with (Z.of_nat r - Z.of_nat b)%Z by lia.
      reflexivity.
    + assert (((Z.of_nat b <? Z.of_nat r) && (3 <=? Z.of_nat r))%Z = false) as ->.
      { apply andb_false_iff.
        destruct (Z.ltb_spec (Z.of_nat b) (Z.of_nat r)); [right|left; reflexivity].
        apply Z.leb_gt. apply Nat2Z.inj_lt in H. lia. }
      reflexivity.
Qed.

(** C3.  For every metrics record the five sub-signals of the code are
    those of the specification (threshold tests counted into a score,
    cut at 2 and 0, cash flow bullish only when both tests pass, the
    product 0.8 x EPS rounded as the code rounds it); the final signal
    is bullish exactly when the bullish sub-signals outnumber the
    bearish ones and are at least 3, bearish symmetrically, with
    confidence [min(1.0, |b - r| / 5)], and neutral with confidence 0.5
    otherwise; the agent publishes that signal and confidence.  On the
    scenario metrics the scores are 3, 2, 3, 2, 3, all five sub-signals
    are bullish and the result is bullish with confidence 1.0. *)
Theorem fundamentals_agent_refines_spec (m : metrics) :
  let b := Spec.occurrences Spec.bullish (Spec.sub_signals m) in
  let r := Spec.occurrences Spec.bearish (Spec.sub_signals m) in
  sub_signals m = map Spec.name (Spec.sub_signals m)
  /\ analyse m = (Spec.name (Spec.fundamentals m).1, (Spec.fundamentals m).2)
  /\ ((analyse m).1 = "bullish" <-> (r < b /\ 3 <= b)%nat)
  /\ ((analyse m).1 = "bearish" <-> (b < r /\ 3 <= r)%nat)
  /\ ((analyse m).1 = "neutral" <->
      ~ (r < b /\ 3 <= b)%nat /\ ~ (b < r /\ 3 <= r)%nat)
  /\ ((analyse m).1 = "neutral" -> (analyse m).2 = 0.5)
  /\ ((analyse m).1 <> "neutral" ->
      (analyse m).2
      = Py.min 1.0 (Py.truediv (Z.abs (Z.of_nat b - Z.of_nat r)) 5))
  /\ (forall data, first_metrics data "return_on_equity" = Ok m ->
      fundamentals_agent data
      = Ok (<["fundamentals_confidence" := VNum (Spec.fundamentals m).2]>
              (<["fundamentals_signal" :=
                   VStr (Spec.name (Spec.fundamentals m).1)]> data)))
  /\ (forall bt mc,
      let s := Examples.scenario_metrics bt mc in
      profitability_score s = 3%Z /\ growth_score s = 2%Z
      /\ health_score s = 3%Z /\ cash_flow_score s = 2%Z
      /\ valuation_score s = 3%Z
      /\ sub_signals s = ["bullish"; "bullish"; "bullish"; "bullish"; "bullish"]
      /\ analyse s = ("bullish", 1.0)).
Proof.
  intros b r.
  assert (Han : analyse m
                = (Spec.name (Spec.fundamentals m).1, (Spec.fundamentals m).2)).
  { unfold analyse, Spec.fundamentals. rewrite f64_sub_signals_refine.
    apply f64_aggregate_refines. reflexivity. }
  rewrite Han. cbn [fst snd].
  unfold Spec.fundamentals, Spec.aggregate. fold b r.
  split_and!.
  - apply f64_sub_signals_refine.
  - reflexivity.
  - destruct (decide (r < b /\ 3 <= b)%nat) as [H|H]; [tauto|].
    destruct (decide (b < r /\ 3 <= r)%nat); simpl; split;
      (discriminate || tauto).
  - destruct (decide (r < b /\ 3 <= b)%nat) as [H|H].
    + simpl. split; [discriminate|lia].
    + destruct (decide (b < r /\ 3 <= r)%nat); simpl; split;
        (discriminate || tauto).
  - destruct (decide (r < b /\ 3 <= b)%nat) as [H|H].
    + simpl. split; [discriminate|tauto].
    + destruct (decide (b < r /\ 3 <= r)%nat); simpl; split;
        (discriminate || tauto).
  - destruct (decide (r < b /\ 3 <= b)%nat) as [H|H]; [discriminate|].
    destruct (decide (b < r /\ 3 <= r)%nat); [discriminate|reflexivity].
  - destruct (decide (r < b /\ 3 <= b)%nat) as [H|H]; [reflexivity|].
    destruct (decide (b < r /\ 3 <= r)%nat); [reflexivity|].
    simpl. congruence.
  - intros data Hm. unfold fundamentals_agent. rewrite Hm. simpl.
    rewrite Han. reflexivity.
  - intros bt mc. split_and!; reflexivity.
Qed.

End FundamentalsRefinement.

Lemma fundamentals_agent_refines_spec_witness :
  F64.Fundamentals.fundamentals_agent (F64.Examples.context F64.Examples.rounded_product)
  = Ok (<["fundamentals_confidence" := F64.VNum 0.4%float]>
          (<["fundamentals_signal" := F64.VStr "bullish"]>
             (F64.Examples.context F64.Examples.rounded_product)))
  /\ F64.Fundamentals.cash_flow_score F64.Examples.rounded_product = 2%Z.
Proof.
  destruct (fundamentals_agent_refines_spec F64.Examples.rounded_product)
    as (_ & _ & _ & _ & _ & _ & _ & Hagent & _).
  split; [|reflexivity].
  exact (Hagent (F64.Examples.context F64.Examples.rounded_product) eq_refl).
Defined.

(** ** Sentiment Analyzer in binary64 *)

Section SentimentAnalysis.

Import F64 F64.Sentiment.
Open Scope float_scope.

Variable series_mean : list float -> float.
Variable series_sum : list float -> float.




End SentimentAnalysis.


(** ** Portfolio Manager in binary64 *)

Section PortfolioOrder.

Import F64 F64.Portfolio.
Open Scope float_scope.

Lemma f64_quot_floor (q : Q) : (0 <= q)%Q -> Z.quot (Qnum q) (Zpos (Qden q)) = Qfloor q.
Proof.
  destruct q as [a b]. unfold Qle. simpl. intros H.
  apply Z.quot_div_nonneg; lia.
Qed.

Lemma f64_quot_ceiling (q : Q) : (q <= 0)%Q -> Z.quot (Qnum q) (Zpos (Qden q)) = Qceiling q.
Proof.
  destruct q as [a b]. unfold Qle, Qceiling. simpl. intros H.
  rewrite <- (Z.opp_involutive a) at 1. rewrite Z.quot_opp_l by lia.
  f_equal. apply Z.quot_div_nonneg; lia.
Qed.

(** [int] returns exactly on the finite floats, and then truncates the
    value toward zero. *)
Lemma f64_int_truncates (x : float) :
  (forall n, Py.int x = Ok n ->
     exists q, Py.exact x = Some q
       /\ ((0 <= q)%Q -> n = Qfloor q) /\ ((q <= 0)%Q -> n = Qceiling q))
  /\ (Py.exact x = None -> exists e, Py.int x = Raise e)
  /\ (forall q, Py.exact x = Some q -> exists n, Py.int x = Ok n).
Proof.
  unfold Py.int, Py.exact.
  destruct (Prim2SF x) as [s|s| |s m e]; split_and!;
    try (intros; discriminate); eauto.
  - intros n H. injection H as <-. exists 0%Q. split_and!; auto.
  - intros n H. injection H as <-. eexists. split; [reflexivity|].
    split; intros Hq.
    + exact (f64_quot_floor _ Hq).
    + exact (f64_quot_ceiling _ Hq).
Qed.

Lemma f64_order_cases (target current_shares : Z) :
  ((current_shares < target)%Z ->
     order target current_shares = ("buy", (target - current_shares)%Z))
  /\ ((target < current_shares)%Z ->
      order target current_shares = ("sell", (current_shares - target)%Z))
  /\ (target = current_shares -> order target current_shares = ("hold", 0%Z)).
Proof.
  unfold order. split_and!; intros H.
  - apply Z.ltb_lt in H. rewrite H. reflexivity.
  - assert ((current_shares <? target)%Z = false) as -> by (apply Z.ltb_ge; lia).
    apply Z.ltb_lt in H. rewrite H. reflexivity.
  - subst. rewrite Z.ltb_irrefl. reflexivity.
Qed.

Lemma f64_is_num_percent (v : value) :
  is_num v = true -> exists x, percent v = Ok x.
Proof. destruct v; try discriminate. simpl. eauto. Qed.

(** With the three reads and numeric confidences, the agent publishes
    the order of [decide], and fails when [decide] fails. *)
Lemma f64_order_published_agent
    (data : gmap string value) (p : portfolio) (price ps : float) :
  reads data = Ok (p, price, ps) ->
  confidences_numeric data ->
  order_published (portfolio_management_agent data)
  = match decide p price ps with
    | Ok o => Some o
    | Raise _ => None
    end.
Proof.
  intros Hr Hn. unfold reads in Hr.
  unfold portfolio_management_agent, make_decision, decide.
  destruct (subscript data "portfolio") as [v|] eqn:Hv; [|discriminate].
  simpl in Hr |- *.
  destruct (last_close data) as [price'|]; [|discriminate]. simpl in Hr |- *.
  destruct (as_portfolio v) as [p'|]; [|discriminate]. simpl in Hr |- *.
  destruct (as_num (get data "position_size" (VNum 0))) as [ps'|];
    [|discriminate].
  simpl in Hr |- *. injection Hr as -> -> ->.
  destruct (total_portfolio_value p price) as [total|]; [|reflexivity]. simpl.
  destruct (target_shares (target_position_value total ps) price) as [target|];
    [|reflexivity].
  simpl.
  unfold confidences_numeric, Risk.signals in Hn.
  apply Forall_cons in Hn as [H1 Hn]. apply Forall_cons in Hn as [H2 Hn].
  apply Forall_cons in Hn as [H3 Hn]. apply Forall_cons in Hn as [H4 _].
  simpl in H1, H2, H3, H4.
  destruct (f64_is_num_percent _ H1) as [x1 ->].
  destruct (f64_is_num_percent _ H2) as [x2 ->].
  destruct (f64_is_num_percent _ H3) as [x3 ->].
  destruct (f64_is_num_percent _ H4) as [x4 ->].
  destruct (order target (stock p)) as [a q]. simpl.
  rewrite lookup_insert_eq. reflexivity.
Qed.

(** C4, falsified as stated: with cash 10, no shares, price 1 and
    position size -0.05 the quotient is -0.5; [int] gives 0 target
    shares and the order (hold, 0), where the floor is -1 and would
    give (sell, 1).  And with price 0 and -3 shares held the order is
    (buy, 3), neither sell-all nor hold. *)
Lemma target_shares_not_floor :
  let p := {| cash := 10; stock := 0 |} in
  (0 <? 1) = true
  /\ total_portfolio_value p 1 = Ok 10
  /\ target_position_value 10 (-0.05) / 1 = -0.5
  /\ target_shares (target_position_value 10 (-0.05)) 1 = Ok 0%Z
  /\ Py.floor (target_position_value 10 (-0.05) / 1) = Ok (-1)%Z
  /\ decide p 1 (-0.05) = Ok ("hold", 0%Z)
  /\ order (-1) (stock p) = ("sell", 1%Z)
  /\ decide {| cash := 10; stock := -3 |} 0 0.5 = Ok ("buy", 3%Z).
Proof. split_and!; vm_compute; reflexivity. Qed.

(** C4, amended.  The total value is cash + stock * price and the
    target value is the total value times the position size, each
    operation rounded to a float; for a positive price the target
    shares are the quotient target value / price truncated toward zero
    (the floor when the quotient is not negative, the ceiling when it
    is not positive), and no order is made when the quotient is
    infinite or NaN; otherwise they are 0; the order is buy target -
    held when the target exceeds the held shares, sell held - target
    when it is below, and (hold, 0) when they are equal; without a
    positive price the order sells all held shares when some are held
    and holds when none are.  The agent publishes that order. *)
Theorem portfolio_order (p : portfolio) (price ps held : float) :
  Py.float_of_int (stock p) = Ok held ->
  let total := cash p + held * price in
  let target_value := total * ps in
  let quotient := target_value / price in
  total_portfolio_value p price = Ok total
  /\ target_position_value total ps = target_value
  /\ ((0 <? price) = true ->
      target_shares target_value price = Py.int quotient)
  /\ (forall target, Py.int quotient = Ok target ->
      exists q, Py.exact quotient = Some q
        /\ ((0 <= q)%Q -> target = Qfloor q)
        /\ ((q <= 0)%Q -> target = Qceiling q))
  /\ (Py.exact quotient = None -> exists e, Py.int quotient = Raise e)
  /\ ((0 <? price) = false -> target_shares target_value price = Ok 0%Z)
  /\ (forall target, target_shares target_value price = Ok target ->
      decide p price ps = Ok (order target (stock p))
      /\ ((stock p < target)%Z ->
          order target (stock p) = ("buy", (target - stock p)%Z))
      /\ ((target < stock p)%Z ->
          order target (stock p) = ("sell", (stock p - target)%Z))
      /\ (target = stock p -> order target (stock p) = ("hold", 0%Z)))
  /\ ((0 <? price) = false -> (0 < stock p)%Z ->
      decide p price ps = Ok ("sell", stock p))
  /\ ((0 <? price) = false -> stock p = 0%Z ->
      decide p price ps = Ok ("hold", 0%Z))
  /\ (forall data, reads data = Ok (p, price, ps) ->
      confidences_numeric data ->
      order_published (portfolio_management_agent data)
      = match decide p price ps with
        | Ok o => Some o
        | Raise _ => None
        end).
Proof.
  intros Hheld total target_value quotient.
  assert (Htotal : total_portfolio_value p price = Ok total).
  { unfold total_portfolio_value. rewrite Hheld. reflexivity. }
  assert (Hzero : (0 <? price) = false ->
                  target_shares target_value price = Ok 0%Z).
  { intros H. unfold target_shares, Py.gt. rewrite H. reflexivity. }
  assert (Hdecide : forall target,
            target_shares target_value price = Ok target ->
            decide p price ps = Ok (order target (stock p))).
  { intros target H. unfold decide. rewrite Htotal. simpl.
    fold total target_value. unfold target_position_value.
    fold target_value. rewrite H. reflexivity. }
  destruct (f64_int_truncates quotient) as (Htrunc & Hraise & _).
  split_and!.
  - exact Htotal.
  - reflexivity.
  - intros H. unfold target_shares, Py.gt. rewrite H. reflexivity.
  - exact Htrunc.
  - exact Hraise.
  - exact Hzero.
  - intros target H.
    destruct (f64_order_cases target (stock p)) as (Hbuy & Hsell & Hhold).
    split_and!; auto.
  - intros H1 H2. rewrite (Hdecide _ (Hzero H1)).
    destruct (f64_order_cases 0 (stock p)) as (_ & Hsell & _).
    rewrite Hsell by exact H2. do 2 f_equal. lia.
  - intros H1 H2. rewrite (Hdecide _ (Hzero H1)).
    destruct (f64_order_cases 0 (stock p)) as (_ & _ & Hhold).
    rewrite Hhold by congruence. reflexivity.
  - intros data Hr Hn. apply f64_order_published_agent; assumption.
Qed.

End PortfolioOrder.

Lemma portfolio_order_witness :
  F64.order_published
    (F64.Portfolio.portfolio_management_agent
       (F64.Examples.pm_context {| F64.cash := 100; F64.stock := 0 |} 1 0.57))
  = Some ("buy", 56%Z).
Proof.
  destruct (portfolio_order {| F64.cash := 100; F64.stock := 0 |} 1 0.57 0 eq_refl)
    as (_ & _ & _ & _ & _ & _ & _ & _ & _ & Hagent).
  rewrite (Hagent (F64.Examples.pm_context {| F64.cash := 100; F64.stock := 0 |} 1 0.57)
             eq_refl).
  - reflexivity.
  - repeat constructor.
Defined.
